(** * StartBot frontend: request client, session and fetch-or-generate screens

    A shallow embedding of the orchestration core of the Next.js client:
    [lib/api.ts] (token helpers, [request], the API functions),
    [lib/auth-context.tsx] ([AuthProvider]), [components/auth/route-guard.tsx]
    and the evaluation, market-research and legal screens.

    Asynchronous functions are written in a state-and-exception monad over
    the component state and a [World] (localStorage, the backend, the log of
    requests sent); [await] is sequencing. *)

From Stdlib Require Import QArith.
From stdpp Require Import gmap strings list fin_maps pretty.

Set Warnings "-register-all".
Open Scope string_scope.
Open Scope list_scope.

(* ===================================================================== *)
(** ** JavaScript values met by the client *)
(* ===================================================================== *)

Module Js.

(** A JSON document as [res.json()] returns it.  A number is carried by the
    decimal form [Number.prototype.toString] prints for it: that form
    determines the number, so [===] on numbers is equality of the forms, and
    the client does no arithmetic on the numbers modelled here. *)
Inductive json :=
| JNull
| JBool (b : bool)
| JNum (repr : string)
| JStr (s : string)
| JArr (items : list json)
| JObj (fields : gmap string json).

(** A string where a document is expected is that string as a document. *)
Coercion JStr : string >-> json.

(** A JavaScript value read from a document: [None] is [undefined]. *)
Abbreviation value := (option json).

(** [!!v] *)
Definition js_truthy (v : value) : bool :=
  match v with
  | None | Some JNull => false
  | Some (JBool b) => b
  | Some (JNum r) => negb (String.eqb r "0")
  | Some (JStr s) => negb (String.eqb s "")
  | Some (JArr _) | Some (JObj _) => true
  end.

(** [typeof v === "number"] *)
Definition is_number (v : value) : bool :=
  match v with Some (JNum _) => true | _ => false end.

(** [v.k] on a value that is neither [null] nor [undefined]. *)
Definition js_get (k : string) (v : json) : value :=
  match v with JObj fields => fields !! k | _ => None end.

(** [v === "s"] for a string literal. *)
Definition is_string (s : string) (v : value) : bool :=
  match v with Some (JStr s') => String.eqb s' s | _ => false end.

(** [v === null] *)
Definition is_null (v : json) : bool :=
  match v with JNull => true | _ => false end.

(** [v == null]: [undefined] or [null] *)
Definition is_nullish (v : value) : bool :=
  match v with None | Some JNull => true | Some _ => false end.

(** [a === b] on values read from two responses: primitives compare by
    value, objects and arrays by identity, which two parsed documents never
    share. *)
Definition strict_eq (a b : value) : bool :=
  match a, b with
  | None, None => true
  | Some JNull, Some JNull => true
  | Some (JBool x), Some (JBool y) => Bool.eqb x y
  | Some (JNum x), Some (JNum y) => String.eqb x y
  | Some (JStr x), Some (JStr y) => String.eqb x y
  | _, _ => false
  end.

(** [String(v)], the conversion [localStorage.setItem] and the [Error]
    constructor apply to their argument. *)
Fixpoint js_String (v : json) : string :=
  match v with
  | JNull => "null"
  | JBool true => "true"
  | JBool false => "false"
  | JNum r => r
  | JStr s => s
  | JArr items =>
      String.concat ","
        (map (fun e => match e with JNull => "" | _ => js_String e end) items)
  | JObj _ => "[object Object]"
  end.

Definition value_String (v : value) : string :=
  match v with None => "undefined" | Some j => js_String j end.

(** The exceptions the client throws or receives. *)
Inductive js_error :=
| ApiError (status : N) (detail : json)     (* class ApiError extends Error *)
| Error (message : string)                  (* new Error(message) *)
| TypeError (message : string)              (* fetch failure, null dereference *)
| SyntaxError (message : string)            (* res.json() on a non-JSON body *)
| DOMException (name message : string).     (* AbortError of an aborted fetch *)

(** [err instanceof ApiError] *)
Definition instanceof_ApiError (e : js_error) : bool :=
  match e with ApiError _ _ => true | _ => false end.

(** [err instanceof Error]: every exception above derives from [Error]. *)
Definition instanceof_Error (e : js_error) : bool := true.

(** [err.message]; [ApiError] passes its detail to [super], which keeps
    [String(detail)] as the message. *)
Definition message (e : js_error) : string :=
  match e with
  | ApiError _ detail => js_String detail
  | Error m | TypeError m | SyntaxError m | DOMException _ m => m
  end.

(** [err.detail]: what the constructor of [ApiError] was given, as it was
    given; no other error has the field. *)
Definition detail (e : js_error) : value :=
  match e with ApiError _ d => Some d | _ => None end.

(** [err instanceof ApiError && err.status === 404] *)
Definition is_404 (e : js_error) : bool :=
  match e with ApiError status _ => (status =? 404)%N | _ => false end.

(** [err instanceof DOMException && err.name === "AbortError"] *)
Definition is_AbortError (e : js_error) : bool :=
  match e with DOMException name _ => String.eqb name "AbortError" | _ => false end.

End Js.
Import Js.

(* ===================================================================== *)
(** ** The network and the monad of asynchronous code *)
(* ===================================================================== *)

Module Net.

(** What [fetch(url, {...options, headers, signal})] puts on the wire; the
    body is the value handed to [JSON.stringify]. *)
Record Sent := mkSent {
  url : string;
  method : string;
  headers : gmap string string;
  body : option json;
}.

(** A response whose headers arrived; [json_body] is [None] when the body
    does not parse as JSON, and [json_error] is then the message of the
    [SyntaxError] that [res.json()] throws, which depends on the body and on
    the engine. *)
Record Response := {
  status : N;
  json_body : option json;
  json_error : string;
}.

(** A response by its status and its body; without a JSON body it is the
    response with an empty body, for which V8 has this message. *)
Definition mkResponse (status : N) (json_body : option json) : Response :=
  {| status := status; json_body := json_body;
     json_error := "Unexpected end of JSON input" |}.

(** [res.ok] *)
Definition ok (res : Response) : bool :=
  ((200 <=? status res) && (status res <=? 299))%N.

(** What the backend and the transport do with a request, on a clock in
    milliseconds that starts when [fetch] is called. *)
Inductive FetchOutcome :=
| Responds (latency : N) (res : Response)
| NetworkFails (latency : N) (reason : string)
| NeverSettles.

(** How a request ended on the wire. *)
Inductive Fate := Delivered | Failed | Aborted.

Record World := mkWorld {
  NEXT_PUBLIC_API_URL : option string;
  backend : list Sent -> Sent -> FetchOutcome;
  localStorage : gmap string string;
  net_log : list (Sent * Fate);
}.

Definition set_localStorage (ls : gmap string string) (w : World) : World :=
  mkWorld (NEXT_PUBLIC_API_URL w) (backend w) ls (net_log w).

Definition log_request (s : Sent) (f : Fate) (w : World) : World :=
  mkWorld (NEXT_PUBLIC_API_URL w) (backend w) (localStorage w)
          (net_log w ++ [(s, f)]).

(** Completion of a promise. *)
Inductive exc (A : Type) :=
| Returns (a : A)
| Throws (e : js_error).
Arguments Returns {A} a.
Arguments Throws {A} e.

(** Asynchronous code of a component whose React state has type [S]. *)
Definition M (S A : Type) : Type := S -> World -> exc A * S * World.

#[global] Instance M_ret {S} : MRet (M S) :=
  fun A a st w => (Returns a, st, w).

#[global] Instance M_bind {S} : MBind (M S) :=
  fun A B k m st w =>
    match m st w with
    | (Returns a, st', w') => k a st' w'
    | (Throws e, st', w') => (Throws e, st', w')
    end.

Definition throw {S A} (e : js_error) : M S A :=
  fun st w => (Throws e, st, w).

(** [try { body } catch (err) { handler }] *)
Definition try_catch {S A} (body : M S A) (handler : js_error -> M S A) : M S A :=
  fun st w =>
    match body st w with
    | (Returns a, st', w') => (Returns a, st', w')
    | (Throws e, st', w') => handler e st' w'
    end.

(** [try { body } finally { finalizer }] *)
Definition try_finally {S A} (body : M S A) (finalizer : M S unit) : M S A :=
  fun st w =>
    match body st w with
    | (r, st', w') =>
        match finalizer st' w' with
        | (Returns _, st'', w'') => (r, st'', w'')
        | (Throws e, st'', w'') => (Throws e, st'', w'')
        end
    end.

(** Code that returns or throws without waiting, as a render does. *)
#[global] Instance exc_ret : MRet exc := fun A a => Returns a.

#[global] Instance exc_bind : MBind exc :=
  fun A B k m =>
    match m with
    | Returns a => k a
    | Throws e => Throws e
    end.

(** [v.k] on a value: dereferencing [undefined] or [null] throws. *)
Definition read (v : value) (k : string) : exc value :=
  match v with
  | None =>
      Throws (TypeError ("Cannot read properties of undefined (reading '"
                         +:+ k +:+ "')"))
  | Some JNull =>
      Throws (TypeError ("Cannot read properties of null (reading '"
                         +:+ k +:+ "')"))
  | Some j => Returns (js_get k j)
  end.

(** A promise that has settled with [o]. *)
Definition settled {S A} (o : exc A) : M S A :=
  fun st w => (o, st, w).

(** A [useState] setter. *)
Definition set_state {S} (f : S -> S) : M S unit :=
  fun st w => (Returns tt, f st, w).

Definition get_state {S} : M S S :=
  fun st w => (Returns st, st, w).

Definition get_world {S} : M S World :=
  fun st w => (Returns w, st, w).

Definition modify_world {S} (f : World -> World) : M S unit :=
  fun st w => (Returns tt, st, f w).

(** [v.k] in asynchronous code: dereferencing [null] throws. *)
Definition js_prop {S} (v : json) (k : string) : M S value :=
  match v with
  | JNull => throw (TypeError ("Cannot read properties of null (reading '" +:+ k +:+ "')"))
  | _ => mret (js_get k v)
  end.

(** A world in which nothing is stored and nothing answers, and the state
    that code which only touches the component state leaves. *)
Definition still : World := mkWorld None (fun _ _ => NeverSettles) ∅ [].

Definition cells_after {S A} (m : M S A) (st : S) : S :=
  snd (fst (m st still)).

(** The result of [await fetch(...)]. *)
Inductive fetch_result :=
| Resolved (res : Response)
| Rejected (e : js_error).

(** [fetch] raced against [setTimeout(() => controller.abort(), timeoutMs)]:
    an outcome that comes strictly before the timer wins; otherwise the
    signal fires and [fetch] rejects with an [AbortError]. *)
Definition race (o : FetchOutcome) (timeoutMs : N) : fetch_result * Fate :=
  let aborted :=
    (Rejected (DOMException "AbortError" "The operation was aborted."), Aborted) in
  match o with
  | Responds latency res =>
      if (latency <? timeoutMs)%N then (Resolved res, Delivered) else aborted
  | NetworkFails latency reason =>
      if (latency <? timeoutMs)%N then (Rejected (TypeError reason), Failed) else aborted
  | NeverSettles => aborted
  end.

(** [await fetch(url, { ...options, headers, signal })] under the timer. *)
Definition fetch {S} (s : Sent) (timeoutMs : N) : M S fetch_result :=
  fun st w =>
    let '(r, fate) := race (backend w (map fst (net_log w)) s) timeoutMs in
    (Returns r, st, log_request s fate w).

End Net.
Import Net.

(* ===================================================================== *)
(** ** lib/api.ts *)
(* ===================================================================== *)

Module Api.

Definition API_BASE_URL (w : World) : string :=
  default "http://localhost:8000" (NEXT_PUBLIC_API_URL w).

Definition TOKEN_KEY : string := "startbot_token".

(** The client components that call these helpers run in the browser, where
    [window] is defined. *)
Definition getToken {S} : M S (option string) :=
  w ← get_world; mret (localStorage w !! TOKEN_KEY).

Definition setToken {S} (token : string) : M S unit :=
  modify_world (fun w => set_localStorage (<[TOKEN_KEY := token]> (localStorage w)) w).

Definition clearToken {S} : M S unit :=
  modify_world (fun w => set_localStorage (delete TOKEN_KEY (localStorage w)) w).

(** The [RequestInit] fields the client uses. *)
Record RequestInit := mkInit {
  init_method : option string;
  init_headers : gmap string string;
  init_body : option json;
}.

Definition no_options : RequestInit := mkInit None ∅ None.
Definition POST (b : option json) : RequestInit := mkInit (Some "POST") ∅ b.

Definition DEFAULT_TIMEOUT_MS : N := 120000.

(** [if (token)]: an empty string is falsy. *)
Definition token_truthy (token : option string) : bool :=
  match token with Some t => negb (String.eqb t "") | None => false end.

(** [body.detail ?? detail]; reading [detail] from a [null] body throws
    inside the [try], which keeps the default.  [ApiError] declares its
    detail a string, but what it is given is the [detail] of the body as the
    server sent it. *)
Definition detail_of (res : Response) : json :=
  let detail := JStr ("Request failed with status " +:+ pretty (status res)) in
  match json_body res with
  | Some b =>
      match js_get "detail" b with
      | None | Some JNull => detail
      | Some d => d
      end
  | None => detail
  end.

Definition timeout_message : string :=
  "Request timed out — the server took too long to respond".

Definition request {S} (path : string) (options : RequestInit)
    (timeoutMs : option N) : M S json :=
  let timeoutMs := default DEFAULT_TIMEOUT_MS timeoutMs in
  w ← get_world;
  let url := API_BASE_URL w +:+ path in
  let method := default "GET" (init_method options) in
  let headers : gmap string string :=
    init_headers options ∪ {[ "Content-Type" := "application/json" ]} in
  (* Attach JWT if available *)
  token ← getToken;
  let headers :=
    if token_truthy token
    then <[ "Authorization" := "Bearer " +:+ default "" token ]> headers
    else headers in
  r ← fetch (mkSent url method headers (init_body options)) timeoutMs;
  match r with
  | Rejected networkErr =>
      if is_AbortError networkErr then throw (Error timeout_message)
      else throw networkErr
  | Resolved res =>
      if negb (ok res) then
        let detail := detail_of res in
        (* Auto-clear token on 401 *)
        (if (status res =? 401)%N then clearToken else mret tt);;
        throw (ApiError (status res) detail)
      else
        match json_body res with
        | Some data => mret data
        | None => throw (SyntaxError (json_error res))
        end
  end.

Definition credentials (email password : string) : json :=
  JObj {[ "email" := JStr email; "password" := JStr password ]}.

Definition login {S} (email password : string) : M S json :=
  data ← request "/auth/login" (POST (Some (credentials email password))) None;
  access_token ← js_prop data "access_token";
  setToken (value_String access_token);;
  mret data.

Definition getMe {S} : M S json :=
  request "/auth/me" no_options None.

Definition getEvaluation {S} (ideaId : string) : M S json :=
  request ("/ideas/" +:+ ideaId +:+ "/evaluation") no_options None.

Definition evaluateIdea {S} (ideaId : string) : M S json :=
  request ("/ideas/" +:+ ideaId +:+ "/evaluate") (POST None) None.

Definition generateMarketResearch {S} (ideaId : string) : M S json :=
  request ("/market-research/generate?idea_id=" +:+ ideaId) (POST None) None.

Definition getMarketResearchByIdea {S} (ideaId : string) : M S json :=
  request ("/market-research/idea/" +:+ ideaId) no_options None.

Definition getPitchDeckByIdea {S} (ideaId : string) : M S json :=
  request ("/pitch-deck/idea/" +:+ ideaId) no_options None.

Definition getMVPByIdea {S} (ideaId : string) : M S json :=
  request ("/mvp/idea/" +:+ ideaId) no_options None.

(** [GenerateLegalRequest] with only [document_type] set. *)
Definition GenerateLegalRequest (document_type : string) : json :=
  JObj {[ "document_type" := JStr document_type ]}.

Definition generateLegalDocument {S} (ideaId : string) (body : json) : M S json :=
  request ("/legal/generate?idea_id=" +:+ ideaId) (POST (Some body)) None.

Definition getLegalByIdea {S} (ideaId : string) : M S json :=
  request ("/legal/idea/" +:+ ideaId) no_options None.

End Api.
Import Api.

(* ===================================================================== *)
(** ** lib/auth-context.tsx *)
(* ===================================================================== *)

Module AuthContext.

(** The [useState] cells of [AuthProvider]; [user] is [JNull] for [null]. *)
Record AuthState := mkAuth {
  user : json;
  loading : bool;
  mounted : bool;
}.

Definition initial : AuthState := mkAuth JNull true false.

Definition setUser (u : json) : M AuthState unit :=
  set_state (fun st => mkAuth u (loading st) (mounted st)).
Definition setLoading (b : bool) : M AuthState unit :=
  set_state (fun st => mkAuth (user st) b (mounted st)).
Definition setMounted (b : bool) : M AuthState unit :=
  set_state (fun st => mkAuth (user st) (loading st) b).

Definition refresh : M AuthState unit :=
  token ← getToken;
  if negb (token_truthy token) then
    setUser JNull;;
    setLoading false
  else
    try_finally
      (try_catch
         (me ← getMe;
          setUser me)
         (fun _ =>
            clearToken;;
            setUser JNull))
      (setLoading false).

(** The mount effect. *)
Definition on_mount : M AuthState unit :=
  setMounted true;;
  refresh.

Definition loginFn (token : string) (userData : json) : M AuthState unit :=
  setToken token;;
  setUser userData.

Definition logout : M AuthState unit :=
  clearToken;;
  setUser JNull.

End AuthContext.

(* ===================================================================== *)
(** ** components/auth/route-guard.tsx *)
(* ===================================================================== *)

Module Guard.

Inductive Rendered :=
| Placeholder      (* the spinner *)
| Nothing          (* return null *)
| Children.

(** The effect: [router.replace("/auth/login")] when it fires. *)
Definition RouteGuard_effect (user : json) (loading : bool) : option string :=
  if negb loading && negb (js_truthy (Some user))
  then Some "/auth/login"
  else None.

Definition RouteGuard (user : json) (loading : bool) : Rendered :=
  if loading then Placeholder
  else if negb (js_truthy (Some user)) then Nothing
  else Children.

End Guard.

(* ===================================================================== *)
(** ** The evaluation screen ([EvaluationContent]) *)
(* ===================================================================== *)

Module EvaluationContent.

Inductive Status := idle | loading | success | error.

(** The [useState] cells; the cell [error] is [error_message] here, [error]
    being the status. *)
Record State := mkState {
  status : Status;
  report : json;
  error_message : option string;
  hasMR : option bool;
  hasPD : option bool;
  hasMVP : option bool;
  mvpGateOpen : bool;
}.

Definition initial : State := mkState loading JNull None None None None false.

Definition setStatus (x : Status) : M State unit :=
  set_state (fun st => mkState x (report st) (error_message st) (hasMR st)
                               (hasPD st) (hasMVP st) (mvpGateOpen st)).
Definition setReport (x : json) : M State unit :=
  set_state (fun st => mkState (status st) x (error_message st) (hasMR st)
                               (hasPD st) (hasMVP st) (mvpGateOpen st)).
Definition setError (x : option string) : M State unit :=
  set_state (fun st => mkState (status st) (report st) x (hasMR st)
                               (hasPD st) (hasMVP st) (mvpGateOpen st)).
Definition setHasMR (x : bool) : M State unit :=
  set_state (fun st => mkState (status st) (report st) (error_message st) (Some x)
                               (hasPD st) (hasMVP st) (mvpGateOpen st)).
Definition setHasPD (x : bool) : M State unit :=
  set_state (fun st => mkState (status st) (report st) (error_message st) (hasMR st)
                               (Some x) (hasMVP st) (mvpGateOpen st)).
Definition setHasMVP (x : bool) : M State unit :=
  set_state (fun st => mkState (status st) (report st) (error_message st) (hasMR st)
                               (hasPD st) (Some x) (mvpGateOpen st)).
Definition setMvpGateOpen (x : bool) : M State unit :=
  set_state (fun st => mkState (status st) (report st) (error_message st) (hasMR st)
                               (hasPD st) (hasMVP st) x).

(** [get(ideaId).then((r) => set(r.status === expected)).catch(() => set(false))] *)
Definition status_check (get : M State json) (expected : string)
    (set : bool -> M State unit) : M State unit :=
  try_catch
    (r ← get;
     s ← js_prop r "status";
     set (is_string expected s))
    (fun _ => set false).

(** The agent status checks; the three chains are taken one after the other. *)
Definition agent_status_checks (ideaId : string) : M State unit :=
  if String.eqb ideaId "" then mret tt
  else
    status_check (getMarketResearchByIdea ideaId) "completed" setHasMR;;
    status_check (getPitchDeckByIdea ideaId) "completed" setHasPD;;
    status_check (getMVPByIdea ideaId) "generated" setHasMVP.

Definition invalid_response : string :=
  "Invalid evaluation response — missing module_scores or final_viability_score".

(** The response shape test of [run]. *)
Definition shape_invalid (data : json) : bool :=
  negb (js_truthy (Some data))
  || negb (js_truthy (js_get "module_scores" data))
  || negb (is_number
             (module_scores ← js_get "module_scores" data;
              js_get "final_viability_score" module_scores)).

(** [run]; [active] is the flag as the continuation finds it. *)
Definition run (ideaId : string) (active : bool) : M State unit :=
  setStatus loading;;
  setError None;;
  try_catch
    ((* 1. Try to load stored evaluation (GET — never re-runs pipeline) *)
     data ← try_catch
              (getEvaluation ideaId)
              (fun getErr =>
                 (* 2. If 404, run evaluation (POST) *)
                 if is_404 getErr then evaluateIdea ideaId
                 else throw getErr);
     (* Validate response shape *)
     (if shape_invalid data then throw (Error invalid_response) else mret tt);;
     if active then
       setReport data;;
       setStatus success
     else mret tt)
    (fun err =>
       if active then
         setError (Some (if instanceof_Error err then message err
                         else "Evaluation failed"));;
         setStatus error
       else mret tt).

(** The effect that starts [run]. *)
Definition evaluation_effect (ideaId : string) (active : bool) : M State unit :=
  if String.eqb ideaId "" then
    setError (Some "Missing idea ID");;
    setStatus error
  else run ideaId active.

(** [const finalScore = module_scores.final_viability_score] of the success
    branch of the render. *)
Definition finalScore (st : State) : value :=
  module_scores ← js_get "module_scores" (report st);
  js_get "final_viability_score" module_scores.

(** What the success branch of the render gives its elements from the
    report: the number of the hero score, in decimal, which the element
    prints with [toFixed(1)], and the four summary badges. *)
Record Report := mkReport {
  hero_score : string;
  verdict : value;
  risk_level : value;
  key_strength : value;
  key_risk : value;
}.

(** The success branch of the render, as far as it reads the report, in the
    order of the source: the destructuring of [report], [finalScore], the
    hero score, the summary badges and [Object.keys(normalized_signals)].
    The module cards, the competitor list and the signal cards are child
    components, and the rest of the branch reads nothing that can throw. *)
Definition render_report (report : json) : exc Report :=
  (* const { module_scores, summary, normalized_signals, ... } = report! *)
  (if is_null report
   then Throws (TypeError
          "Cannot destructure property 'module_scores' of 'report' as it is null.")
   else Returns tt);;
  let module_scores := js_get "module_scores" report in
  let summary := js_get "summary" report in
  let normalized_signals := js_get "normalized_signals" report in
  (* const finalScore = module_scores.final_viability_score *)
  finalScore ← read module_scores "final_viability_score";
  (* {finalScore.toFixed(1)} *)
  hero ← match finalScore with
         | Some (JNum n) => Returns n
         | None =>
             Throws (TypeError
               "Cannot read properties of undefined (reading 'toFixed')")
         | Some JNull =>
             Throws (TypeError
               "Cannot read properties of null (reading 'toFixed')")
         | Some _ => Throws (TypeError "finalScore.toFixed is not a function")
         end;
  verdict ← read summary "verdict";
  risk_level ← read summary "risk_level";
  key_strength ← read summary "key_strength";
  key_risk ← read summary "key_risk";
  (* Object.keys(normalized_signals) *)
  (if is_nullish normalized_signals
   then Throws (TypeError "Cannot convert undefined or null to object")
   else Returns tt);;
  Returns (mkReport hero verdict risk_level key_strength key_risk).

(** The render: the loader, the error panel or the report.  An exception
    it throws leaves nothing of the screen on display. *)
Inductive View :=
| Loader
| ErrorPanel (error : option string)
| ReportPage (shown : Report).

Definition render (st : State) : exc View :=
  match status st with
  | loading => Returns Loader
  | error => Returns (ErrorPanel (error_message st))
  | _ =>
      shown ← render_report (report st);
      Returns (ReportPage shown)
  end.

(** [if (hasMR)] on a [boolean | null] cell. *)
Definition flag (b : option bool) : bool := default false b.

(** The MVP Generator button: where its [onClick] navigates ([None]: it
    stays and opens the gating modal), its [title] and its caption. *)
Definition mvp_onClick (ideaId : string) : M State (option string) :=
  st ← get_state;
  if flag (hasMR st) then mret (Some ("/mvp/" +:+ ideaId))
  else
    setMvpGateOpen true;;
    mret None.

Definition mvp_title (st : State) : option string :=
  if flag (hasMR st) then None else Some "Requires completed market research".

Definition mvp_caption (st : State) : string :=
  if flag (hasMR st) then "Feature plan & tech stack"
  else "Needs market research first".

End EvaluationContent.

(* ===================================================================== *)
(** ** The market-research screen ([MarketResearchContent]) *)
(* ===================================================================== *)

Module MarketResearchContent.

Inductive Status := idle | loading | generating | success | error.

(** The [useState] cells of the fetch-or-generate machine; the cell [error]
    is [error_message] here.  It is declared [string | null] ([None] is
    [null]), but [handleGenerate] stores the [detail] of an [ApiError] in it
    as the server sent it, which need not be a string. *)
Record State := mkState {
  status : Status;
  research : json;
  error_message : option json;
}.

Definition initial : State := mkState loading JNull None.

Definition setStatus (x : Status) : M State unit :=
  set_state (fun st => mkState x (research st) (error_message st)).
Definition setResearch (x : json) : M State unit :=
  set_state (fun st => mkState (status st) x (error_message st)).
Definition setError (x : option json) : M State unit :=
  set_state (fun st => mkState (status st) (research st) x).

(** [load] is written in two parts: what runs before its [await], and its
    [try] block around the call it awaits.  The [console.log] after the read
    evaluates [data.id] and [data.status]. *)
Definition load_begin : M State unit :=
  setStatus loading;;
  setError None.

Definition load_try (call : M State json) (active : bool) : M State unit :=
  try_catch
    (data ← call;
     _ ← js_prop data "id";
     data_status ← js_prop data "status";
     if active then
       setResearch data;;
       setStatus (if is_string "completed" data_status then success else idle)
     else mret tt)
    (fun err =>
       if active then
         if is_404 err then setStatus idle
         else
           setError (Some (JStr (if instanceof_Error err then message err
                                 else "Failed to load research")));;
           setStatus error
       else mret tt).

Definition load (ideaId : string) (active : bool) : M State unit :=
  load_begin;;
  load_try (getMarketResearchByIdea ideaId) active.

(** The effect that starts [load]. *)
Definition load_effect (ideaId : string) (active : bool) : M State unit :=
  if String.eqb ideaId "" then
    setError (Some (JStr "Missing idea ID"));;
    setStatus error
  else load ideaId active.

(** [handleGenerate], in the same two parts. *)
Definition handleGenerate_begin : M State unit :=
  setStatus generating;;
  setError None.

Definition handleGenerate_try (call : M State json) : M State unit :=
  try_catch
    (data ← call;
     _ ← js_prop data "id";
     _ ← js_prop data "status";
     setResearch data;;
     setStatus success)
    (fun err =>
       let message : value :=
         if instanceof_ApiError err then detail err
         else if instanceof_Error err then Some (JStr (message err))
         else Some (JStr "Market research generation failed.") in
       setError message;;
       setStatus error).

Definition handleGenerate (ideaId : string) : M State unit :=
  handleGenerate_begin;;
  handleGenerate_try (generateMarketResearch ideaId).

(** The branch of the render taken in a state. *)
Inductive View :=
| LoadingView        (* spinner "Loading market research..." *)
| GeneratingView     (* spinner "Generating market research..." *)
| ErrorView
| IdleView
| ReportView.

Definition render (st : State) : View :=
  match status st with
  | loading => LoadingView
  | generating => GeneratingView
  | error => ErrorView
  | s =>
      if match s with idle => true | _ => false end
         || negb (js_truthy (Some (research st)))
         || negb (is_string "completed" (js_get "status" (research st)))
      then IdleView
      else ReportView
  end.

(** The buttons of a view whose [onClick] is [handleGenerate]. *)
Inductive Button := TryAgain | GenerateMarketResearch | Regenerate.

Definition generate_buttons (v : View) : list Button :=
  match v with
  | LoadingView | GeneratingView => []
  | ErrorView => [TryAgain]
  | IdleView => [GenerateMarketResearch]
  | ReportView => [Regenerate]
  end.

(** The mounted screen as a transition system.  A click reaches the handler
    of a button only if the current render shows that button; a call in
    flight settles with whatever the backend and the transport make of it. *)
Inductive Call := ReadCall | GenerateCall.

Record Screen := mkScreen {
  cells : State;
  in_flight : list Call;
}.

(** After the mount effect has started [load]. *)
Definition mounted_screen : Screen :=
  mkScreen (cells_after load_begin initial) [ReadCall].

Inductive step : Screen -> Screen -> Prop :=
| click scr b :
    b ∈ generate_buttons (render (cells scr)) ->
    step scr (mkScreen (cells_after handleGenerate_begin (cells scr))
                       (in_flight scr ++ [GenerateCall]))
| read_settles scr before after (o : exc json) :
    in_flight scr = before ++ ReadCall :: after ->
    step scr (mkScreen (cells_after (load_try (settled o) true) (cells scr))
                       (before ++ after))
| generate_settles scr before after (o : exc json) :
    in_flight scr = before ++ GenerateCall :: after ->
    step scr (mkScreen (cells_after (handleGenerate_try (settled o)) (cells scr))
                       (before ++ after)).

End MarketResearchContent.

(* ===================================================================== *)
(** ** The legal screen ([LegalContent]) *)
(* ===================================================================== *)

Module LegalContent.

(** ["generating"] of [Status] is [generating_status] here; [generating] is
    the state cell below. *)
Inductive Status := idle | loading | generating_status | success | error.

(** The five [useState] cells, and [render_error], which is not a cell: it
    is the exception React met when it rendered the screen after an update
    of [documents] (an updater that throws, a value that is not an array).
    Such an exception is not one of the handler that made the update, whose
    [catch] never sees it: the screen is unmounted for the error boundary,
    and its cells are shown no more. *)
Record State := mkState {
  status : Status;
  documents : list json;
  selectedDoc : json;
  error_message : option string;
  generating : option string;
  render_error : option js_error;
}.

Definition initial : State := mkState loading [] JNull None None None.

Definition setStatus (x : Status) : M State unit :=
  set_state (fun st => mkState x (documents st) (selectedDoc st)
                               (error_message st) (generating st)
                               (render_error st)).
(** [setDocuments(next)], where [next] is an updater [(prev) => ...] or, as a
    constant function, the new value. *)
Definition setDocuments (next : list json -> exc (list json)) : M State unit :=
  set_state (fun st =>
    match next (documents st) with
    | Returns docs =>
        mkState (status st) docs (selectedDoc st) (error_message st)
                (generating st) (render_error st)
    | Throws e =>
        mkState (status st) (documents st) (selectedDoc st) (error_message st)
                (generating st) (Some e)
    end).
Definition setSelectedDoc (x : json) : M State unit :=
  set_state (fun st => mkState (status st) (documents st) x
                               (error_message st) (generating st)
                               (render_error st)).
Definition setError (x : option string) : M State unit :=
  set_state (fun st => mkState (status st) (documents st) (selectedDoc st)
                               x (generating st) (render_error st)).
Definition setGenerating (x : option string) : M State unit :=
  set_state (fun st => mkState (status st) (documents st) (selectedDoc st)
                               (error_message st) x (render_error st)).

Definition DOCUMENT_TYPES : list string :=
  ["nda"; "founder_agreement"; "privacy_policy"; "terms_of_service"].

(** [d.document_type] and [d.status] of a record of the list. *)
Definition document_type (d : json) : value := js_get "document_type" d.
Definition record_status (d : json) : value := js_get "status" d.

(** [res.records || []] *)
Definition records_or_empty (records : value) : json :=
  if js_truthy records then default JNull records else JArr [].

(** The cell [documents] is declared an array and used as one: on a value
    that is not an array, [documents.find] of the render that follows
    [setStatus("success")] is not a function. *)
Definition as_array (v : json) : exc (list json) :=
  match v with
  | JArr items => Returns items
  | _ => Throws (TypeError "documents.find is not a function")
  end.

(** [fetchDocs]: its [try] block around the call it awaits, and the whole. *)
Definition fetchDocs_try (call : M State json) : M State unit :=
  try_catch
    (res ← call;
     records ← js_prop res "records";
     setDocuments (fun _ => as_array (records_or_empty records));;
     setStatus success)
    (fun err =>
       if is_404 err then
         setDocuments (fun _ => Returns []);;
         setStatus success
       else
         setError (Some (if instanceof_Error err then message err
                         else "Failed to load documents"));;
         setStatus error).

Definition fetchDocs (ideaId : string) : M State unit :=
  if String.eqb ideaId "" then mret tt
  else fetchDocs_try (getLegalByIdea ideaId).

(** The updater [handleGenerate] hands to [setDocuments]:
    [(prev) => [result, ...prev.filter((d) => d.document_type !== result.document_type)]].
    For every element of the list the callback of the filter reads
    [document_type] from the element and from [result]: a [null] among
    them, or a [null] result next to a list that is not empty, is a
    TypeError.  [update_documents] is the list the updater returns when
    these reads succeed. *)
Definition update_documents (result : json) (prev : list json) : list json :=
  let filtered :=
    List.filter
      (fun d => negb (strict_eq (document_type d) (document_type result)))
      prev in
  result :: filtered.

Definition reads_null (result : json) (prev : list json) : bool :=
  existsb (fun d => is_null d || is_null result) prev.

Definition documents_updater (result : json) (prev : list json)
    : exc (list json) :=
  if reads_null result prev
  then Throws (TypeError "Cannot read properties of null (reading 'document_type')")
  else Returns (update_documents result prev).

(** Generate a specific document type: what runs before the [await], the
    [try] block around the call it awaits, and the whole. *)
Definition handleGenerate_begin (docTypeKey : string) : M State unit :=
  setGenerating (Some docTypeKey);;
  setError None.

Definition handleGenerate_try (call : M State json) : M State unit :=
  try_finally
    (try_catch
       (result ← call;
        (* Update documents list *)
        setDocuments (documents_updater result);;
        setSelectedDoc result)
       (fun err =>
          setError (Some (if instanceof_Error err then message err
                          else "Generation failed. Please try again."))))
    (setGenerating None).

Definition handleGenerate (ideaId docTypeKey : string) : M State unit :=
  handleGenerate_begin docTypeKey;;
  handleGenerate_try (generateLegalDocument ideaId (GenerateLegalRequest docTypeKey)).

(** Find existing doc by type *)
Definition getDocByType (st : State) (key : string) : option json :=
  List.find
    (fun d => is_string key (document_type d)
              && is_string "generated" (record_status d))
    (documents st).

(** A document type card: [disabled={isGenerating}] and its [onClick]. *)
Definition card_disabled (st : State) (key : string) : bool :=
  match generating st with Some g => String.eqb g key | None => false end.

Definition card_onClick (ideaId key : string) : M State unit :=
  st ← get_state;
  match getDocByType st key with
  | Some existing => setSelectedDoc existing
  | None => handleGenerate ideaId key
  end.

(** The cards are rendered unless the screen shows the loading spinner or
    the full-page error. *)
Definition cards_shown (st : State) : bool :=
  match status st with
  | loading => false
  | error => negb (Nat.eqb (length (documents st)) 0)
  | _ => true
  end.

(** The mounted screen as a transition system, as for market research. *)
Inductive Call := ReadDocs | Generate (docTypeKey : string).

Record Screen := mkScreen {
  cells : State;
  in_flight : list Call;
}.

(** After the mount effect has started [fetchDocs]. *)
Definition mounted_screen : Screen := mkScreen initial [ReadDocs].

Inductive step : Screen -> Screen -> Prop :=
| docs_settle scr before after (o : exc json) :
    in_flight scr = before ++ ReadDocs :: after ->
    step scr (mkScreen (cells_after (fetchDocs_try (settled o)) (cells scr))
                       (before ++ after))
| retry scr :
    status (cells scr) = error ->
    documents (cells scr) = [] ->
    step scr (mkScreen (cells scr) (in_flight scr ++ [ReadDocs]))
| card_select scr key existing :
    cards_shown (cells scr) = true ->
    key ∈ DOCUMENT_TYPES ->
    card_disabled (cells scr) key = false ->
    getDocByType (cells scr) key = Some existing ->
    step scr (mkScreen (cells_after (setSelectedDoc existing) (cells scr))
                       (in_flight scr))
| card_generate scr key :
    cards_shown (cells scr) = true ->
    key ∈ DOCUMENT_TYPES ->
    card_disabled (cells scr) key = false ->
    getDocByType (cells scr) key = None ->
    step scr (mkScreen (cells_after (handleGenerate_begin key) (cells scr))
                       (in_flight scr ++ [Generate key]))
| generate_settles scr before after key (o : exc json) :
    in_flight scr = before ++ Generate key :: after ->
    step scr (mkScreen (cells_after (handleGenerate_try (settled o)) (cells scr))
                       (before ++ after)).

End LegalContent.

(* ===================================================================== *)
(** ** Vocabulary of the statements *)
(* ===================================================================== *)

Module Obs.

(** An asynchronous call seen from outside a component: what it completes
    with and the world it leaves. *)
Definition outcome {A} (m : M unit A) (w : World) : exc A * World :=
  let '(r, _, w') := m tt w in (r, w').

(** The request [request path options] sends from world [w]. *)
Definition request_sent (path : string) (options : RequestInit) (w : World) : Sent :=
  let base : gmap string string :=
    init_headers options ∪ {[ "Content-Type" := "application/json" ]} in
  mkSent (API_BASE_URL w +:+ path)
         (default "GET" (init_method options))
         (if token_truthy (localStorage w !! TOKEN_KEY)
          then <[ "Authorization" :=
                    "Bearer " +:+ default "" (localStorage w !! TOKEN_KEY) ]> base
          else base)
         (init_body options).

(** What the backend does with that request, given the requests before it. *)
Definition served (path : string) (options : RequestInit) (w : World) : FetchOutcome :=
  backend w (map fst (net_log w)) (request_sent path options w).

(** The timer of [timeoutMs] fires before the outcome. *)
Definition elapses (o : FetchOutcome) (timeoutMs : N) : Prop :=
  match o with
  | Responds latency _ | NetworkFails latency _ => (timeoutMs <= latency)%N
  | NeverSettles => True
  end.

(** The stored bearer token. *)
Definition stored_token (w : World) : option string :=
  localStorage w !! TOKEN_KEY.

(** An [ApiError] of a 401 response. *)
Definition is_unauthorized (e : js_error) : bool :=
  match e with ApiError status _ => (status =? 401)%N | _ => false end.

(** The generate calls (POST requests) sent so far. *)
Definition is_post (entry : Sent * Fate) : bool :=
  String.eqb (method (fst entry)) "POST".

Definition generate_calls (w : World) : nat :=
  length (List.filter is_post (net_log w)).

(** The backend answers every [meth] request for [path] with [res], within
    the default budget. *)
Definition replies (w : World) (meth path : string) (res : Response) : Prop :=
  forall hist s,
    method s = meth ->
    url s = API_BASE_URL w +:+ path ->
    exists latency,
      backend w hist s = Responds latency res /\ (latency < DEFAULT_TIMEOUT_MS)%N.

(** The records of a legal document list whose [document_type] is [key], and
    the lists that hold at most one record per document type. *)
Definition records_of_type (key : string) (docs : list json) : list json :=
  List.filter (fun d => is_string key (LegalContent.document_type d)) docs.

Definition one_per_type (docs : list json) : Prop :=
  forall key, (length (records_of_type key docs) <= 1)%nat.

End Obs.
Import Obs.

(* ===================================================================== *)
(** ** Scenarios *)
(* ===================================================================== *)

Module Scenario.

Definition not_authenticated : Response :=
  mkResponse 401 (Some (JObj {[ "detail" := JStr "Not authenticated" ]})).

Definition not_found : Response :=
  mkResponse 404 (Some (JObj {[ "detail" := JStr "Not found" ]})).

(** A browser holding a token, in front of a backend [b]. *)
Definition signed_in (b : list Sent -> Sent -> FetchOutcome) : World :=
  mkWorld None b {[ TOKEN_KEY := "t0k3n" ]} [].

(** A browser without a token. *)
Definition signed_out (b : list Sent -> Sent -> FetchOutcome) : World :=
  mkWorld None b ∅ [].

(** Backends: one that rejects every request as unauthenticated after 40 ms,
    one that never answers, one that is unreachable. *)
Definition rejecting : list Sent -> Sent -> FetchOutcome :=
  fun _ _ => Responds 40 not_authenticated.

Definition silent : list Sent -> Sent -> FetchOutcome :=
  fun _ _ => NeverSettles.

Definition unreachable : list Sent -> Sent -> FetchOutcome :=
  fun _ _ => NetworkFails 5 "Failed to fetch".

(** A backend that has nothing stored: every GET is a 404, every POST
    generates the document [generated]. *)
Definition nothing_stored (generated : json) : list Sent -> Sent -> FetchOutcome :=
  fun _ s =>
    if String.eqb (method s) "POST"
    then Responds 900 (mkResponse 200 (Some generated))
    else Responds 40 not_found.

(** A backend that answers every request with the document [stored]. *)
Definition holding (stored : json) : list Sent -> Sent -> FetchOutcome :=
  fun _ _ => Responds 40 (mkResponse 200 (Some stored)).

Definition report_72_5 : json :=
  JObj {[ "module_scores" := JObj {[ "final_viability_score" := JNum "72.5" ]} ]}.

(** A report with the other fields the view reads as well. *)
Definition full_report_72_5 : json :=
  JObj {[ "idea_id" := JStr "abc123";
          "module_scores" :=
            JObj {[ "problem_intensity" := JNum "80";
                    "market_timing" := JNum "70";
                    "competition_pressure" := JNum "65";
                    "market_potential" := JNum "75";
                    "execution_feasibility" := JNum "72";
                    "final_viability_score" := JNum "72.5" ]};
          "summary" :=
            JObj {[ "verdict" := JStr "Strong"; "risk_level" := JStr "Low";
                    "key_strength" := JStr "Market timing";
                    "key_risk" := JStr "Competition" ]};
          "normalized_signals" := JObj ∅;
          "competitor_names" := JArr [] ]}.

Definition old_nda : json :=
  JObj {[ "id" := JStr "doc-1"; "document_type" := JStr "nda";
          "status" := JStr "generated" ]}.

Definition old_privacy : json :=
  JObj {[ "id" := JStr "doc-2"; "document_type" := JStr "privacy_policy";
          "status" := JStr "generated" ]}.

Definition new_nda : json :=
  JObj {[ "id" := JStr "doc-3"; "document_type" := JStr "nda";
          "status" := JStr "generated" ]}.

(** The answer of a backend that holds two NDAs for the idea. *)
Definition two_ndas : json :=
  JObj {[ "records" := JArr [old_nda; new_nda] ]}.

(** A market-research screen with a call in flight. *)
Definition busy_research : MarketResearchContent.State :=
  MarketResearchContent.mkState MarketResearchContent.generating JNull None.

(** A legal screen while the privacy policy is being generated. *)
Definition busy_legal : LegalContent.State :=
  LegalContent.mkState LegalContent.success [] JNull None (Some "privacy_policy")
    None.

Definition completed_research : json :=
  JObj {[ "id" := JStr "mr-1"; "status" := JStr "completed" ]}.

End Scenario.

(* ===================================================================== *)
(** ** lib/api.ts: the other API functions used by the screens *)
(* ===================================================================== *)

Module ApiMore.

Definition signup {S} (email username password : string) : M S json :=
  request "/auth/signup"
    (POST (Some (JObj {[ "email" := JStr email; "username" := JStr username;
                         "password" := JStr password ]})))
    None.

Definition getDashboard {S} : M S json :=
  request "/auth/dashboard" no_options None.

(** [data] is the form, handed to [JSON.stringify]. *)
Definition createIdea {S} (data : json) : M S json :=
  request "/ideas/" (POST (Some data)) None.

Definition generatePitchDeck {S} (ideaId : string) : M S json :=
  request ("/pitch-deck/generate?idea_id=" +:+ ideaId) (POST None) None.

Definition generateMVP {S} (ideaId : string) : M S json :=
  request ("/mvp/generate?idea_id=" +:+ ideaId) (POST None) None.

End ApiMore.
Import ApiMore.

(* ===================================================================== *)
(** ** Components that use the session context *)
(* ===================================================================== *)

Module Ctx.

(** A component under [AuthProvider]: the provider's cells next to its own. *)
Record WithAuth (T : Type) := mkWithAuth {
  auth : AuthContext.AuthState;
  own : T;
}.
Arguments mkWithAuth {T} auth own.
Arguments auth {T} _.
Arguments own {T} _.

(** A context operation run from the component. *)
Definition in_auth {T A} (m : M AuthContext.AuthState A) : M (WithAuth T) A :=
  fun st w =>
    let '(r, a, w') := m (auth st) w in
    (r, mkWithAuth a (own st), w').

(** A setter or a router call of the component. *)
Definition in_own {T} (f : T -> T) : M (WithAuth T) unit :=
  set_state (fun st => mkWithAuth (auth st) (f (own st))).

End Ctx.
Import Ctx.

(** The navigation bar ([Navbar]); its own state is where [router.push] last
    sent the browser. *)
Module Navbar.

Definition handleLogout : M (WithAuth (option string)) unit :=
  in_auth AuthContext.logout;;
  in_own (fun _ => Some "/auth/login").

End Navbar.

(** The Google sign-in callback page ([GoogleCallbackContent]). *)
Module GoogleCallback.

Record Page := mkPage {
  error_message : option string;     (* the cell [error] *)
  replaced : option string;          (* the target of [router.replace] *)
}.

Definition initial : Page := mkPage None None.

Definition setError (x : option string) : M (WithAuth Page) unit :=
  in_own (fun p => mkPage x (replaced p)).
Definition router_replace (target : string) : M (WithAuth Page) unit :=
  in_own (fun p => mkPage (error_message p) (Some target)).

Definition handleToken (token : string) : M (WithAuth Page) unit :=
  try_catch
    (setToken token;;
     user ← getMe;
     in_auth (AuthContext.loginFn token user);;
     router_replace "/dashboard")
    (fun _ =>
       setError (Some "Failed to authenticate with Google. Please try again.")).

(** The effect; [token] is [searchParams.get("token")]. *)
Definition callback_effect (token : option string) : M (WithAuth Page) unit :=
  if negb (token_truthy token) then
    setError (Some "No token received from Google authentication.")
  else handleToken (default "" token).

End GoogleCallback.

(* ===================================================================== *)
(** ** The dashboard ([DashboardContent]) *)
(* ===================================================================== *)

Module DashboardContent.

Record State := mkState {
  data : json;
  loading : bool;
}.

Definition initial : State := mkState JNull true.

Definition setData (x : json) : M State unit :=
  set_state (fun st => mkState x (loading st)).
Definition setLoading (x : bool) : M State unit :=
  set_state (fun st => mkState (data st) x).

(** [v.length] as the argument of a log line: reading it from [undefined]
    or [null] throws; its value is only printed. *)
Definition log_length (v : value) : M State unit :=
  match v with
  | None =>
      throw (TypeError "Cannot read properties of undefined (reading 'length')")
  | Some JNull =>
      throw (TypeError "Cannot read properties of null (reading 'length')")
  | Some _ => mret tt
  end.

(** [load]: its [try] block around the call it awaits, and the whole. *)
Definition load_try (call : M State json) (active : bool) : M State unit :=
  try_finally
    (try_catch
       (res ← call;
        ideas ← js_prop res "ideas";
        log_length ideas;;
        if active then setData res else mret tt)
       (fun _ => mret tt))
    (if active then setLoading false else mret tt).

Definition load (active : bool) : M State unit :=
  load_try getDashboard active.

End DashboardContent.

(* ===================================================================== *)
(** ** The pitch-deck and MVP screens ([PitchDeckContent], [MVPContent]) *)
(* ===================================================================== *)

(** The two screens run the code of the market-research screen on their own
    API functions, stored status and fallback messages; it is written once,
    over these. *)
Module AgentScreen.

Inductive Status := idle | loading | generating | success | error.

(** The [useState] cells: [status], the stored record ([deck], [report]) and
    [error], which holds a string, [null] ([None]) or the [detail] of an
    [ApiError] as the server sent it. *)
Record State := mkState {
  status : Status;
  record : json;
  error_message : option json;
}.

Definition initial : State := mkState loading JNull None.

Definition setStatus (x : Status) : M State unit :=
  set_state (fun st => mkState x (record st) (error_message st)).
Definition setRecord (x : json) : M State unit :=
  set_state (fun st => mkState (status st) x (error_message st)).
Definition setError (x : option json) : M State unit :=
  set_state (fun st => mkState (status st) (record st) x).

Definition load_begin : M State unit :=
  setStatus loading;;
  setError None.

Definition load_try (call : M State json) (done load_failed : string)
    (active : bool) : M State unit :=
  try_catch
    (data ← call;
     _ ← js_prop data "id";
     data_status ← js_prop data "status";
     if active then
       setRecord data;;
       setStatus (if is_string done data_status then success else idle)
     else mret tt)
    (fun err =>
       if active then
         if is_404 err then setStatus idle
         else
           setError (Some (JStr (if instanceof_Error err then message err
                                 else load_failed)));;
           setStatus error
       else mret tt).

Definition load_effect (call : M State json) (done load_failed : string)
    (ideaId : string) (active : bool) : M State unit :=
  if String.eqb ideaId "" then
    setError (Some (JStr "Missing idea ID"));;
    setStatus error
  else
    load_begin;;
    load_try call done load_failed active.

Definition handleGenerate_begin : M State unit :=
  setStatus generating;;
  setError None.

Definition handleGenerate_try (call : M State json) (generate_failed : string)
    : M State unit :=
  try_catch
    (data ← call;
     _ ← js_prop data "id";
     _ ← js_prop data "status";
     setRecord data;;
     setStatus success)
    (fun err =>
       let message : value :=
         if instanceof_ApiError err then detail err
         else if instanceof_Error err then Some (JStr (message err))
         else Some (JStr generate_failed) in
       setError message;;
       setStatus error).

Definition handleGenerate (call : M State json) (generate_failed : string)
    : M State unit :=
  handleGenerate_begin;;
  handleGenerate_try call generate_failed.

(** The branch of the render: the report view needs a stored record whose
    status is [done]. *)
Inductive View := LoadingView | GeneratingView | ErrorView | IdleView | ReportView.

Definition render (done : string) (st : State) : View :=
  match status st with
  | loading => LoadingView
  | generating => GeneratingView
  | error => ErrorView
  | s =>
      if match s with idle => true | _ => false end
         || negb (js_truthy (Some (record st)))
         || negb (is_string done (js_get "status" (record st)))
      then IdleView
      else ReportView
  end.

End AgentScreen.

Module PitchDeckContent.

Definition loadDeck_effect (ideaId : string) (active : bool)
    : M AgentScreen.State unit :=
  AgentScreen.load_effect (getPitchDeckByIdea ideaId) "completed"
    "Failed to load deck" ideaId active.

Definition handleGenerate (ideaId : string) : M AgentScreen.State unit :=
  AgentScreen.handleGenerate (generatePitchDeck ideaId)
    "Pitch deck generation failed.".

Definition render : AgentScreen.State -> AgentScreen.View :=
  AgentScreen.render "completed".

End PitchDeckContent.

Module MVPContent.

Definition load_effect (ideaId : string) (active : bool)
    : M AgentScreen.State unit :=
  AgentScreen.load_effect (getMVPByIdea ideaId) "generated"
    "Failed to load MVP" ideaId active.

Definition handleGenerate (ideaId : string) : M AgentScreen.State unit :=
  AgentScreen.handleGenerate (generateMVP ideaId) "MVP generation failed.".

Definition render : AgentScreen.State -> AgentScreen.View :=
  AgentScreen.render "generated".

End MVPContent.

(* ===================================================================== *)
(** ** The new-idea form ([NewIdeaForm]) *)
(* ===================================================================== *)

Module NewIdea.

(** The form; the numeric fields hold what [parseFloat(...) || 0] produced,
    which is never NaN, and are only compared with constants. *)
Record StartupIdeaInput := mkInput {
  startup_name : string;
  one_line_description : string;
  industry : string;
  target_customer_type : string;
  geography : string;
  customer_size : string;
  revenue_model : string;
  pricing_estimate : Q;
  estimated_cac : Q;
  estimated_ltv : Q;
  team_size : Q;
  tech_complexity : Q;
  regulatory_risk : Q;
}.

(** [if (cond) errors[key] = text] *)
Definition flag_error (cond : bool) (key text : string)
    (errors : gmap string string) : gmap string string :=
  if cond then <[ key := text ]> errors else errors.

Section WithTrim.

(** [String.prototype.trim] *)
Variable trim : string -> string.

(** [!s.trim()] *)
Definition blank (s : string) : bool := String.eqb (trim s) "".

Definition validate (form : StartupIdeaInput) : gmap string string :=
  let errors : gmap string string := ∅ in
  let errors := flag_error (blank (startup_name form)) "startup_name" "Required" errors in
  let errors := flag_error (blank (one_line_description form))
                  "one_line_description" "Required" errors in
  let errors := flag_error (blank (industry form)) "industry" "Required" errors in
  let errors := flag_error (String.eqb (target_customer_type form) "")
                  "target_customer_type" "Required" errors in
  let errors := flag_error (blank (geography form)) "geography" "Required" errors in
  let errors := flag_error (String.eqb (customer_size form) "")
                  "customer_size" "Required" errors in
  let errors := flag_error (String.eqb (revenue_model form) "")
                  "revenue_model" "Required" errors in
  let errors := flag_error (Qle_bool (pricing_estimate form) 0)
                  "pricing_estimate" "Must be > 0" errors in
  let errors := flag_error (negb (Qle_bool 0 (estimated_cac form)))
                  "estimated_cac" "Must be >= 0" errors in
  let errors := flag_error (negb (Qle_bool 0 (estimated_ltv form)))
                  "estimated_ltv" "Must be >= 0" errors in
  let errors := flag_error (negb (Qle_bool 1 (team_size form)))
                  "team_size" "Must be >= 1" errors in
  errors.

Definition computeCurrentStep (form : StartupIdeaInput) : nat :=
  let s1 :=
    negb (blank (startup_name form))
    && negb (blank (one_line_description form))
    && negb (blank (industry form)) in
  let s2 :=
    negb (String.eqb (target_customer_type form) "")
    && negb (blank (geography form))
    && negb (String.eqb (customer_size form) "") in
  let s3 :=
    negb (String.eqb (revenue_model form) "")
    && negb (Qle_bool (pricing_estimate form) 0) in
  if s1 && s2 && s3 then 3
  else if s1 && s2 then 2
  else if s1 then 1
  else 0.

(** The cells of the form component and where [router.push] sent it. *)
Record State := mkState {
  form : StartupIdeaInput;
  errors : gmap string string;
  submitting : bool;
  apiError : option string;
  pushed : option string;
}.

Definition setErrors (x : gmap string string) : M State unit :=
  set_state (fun st => mkState (form st) x (submitting st) (apiError st) (pushed st)).
Definition setSubmitting (x : bool) : M State unit :=
  set_state (fun st => mkState (form st) (errors st) x (apiError st) (pushed st)).
Definition setApiError (x : option string) : M State unit :=
  set_state (fun st => mkState (form st) (errors st) (submitting st) x (pushed st)).
Definition router_push (target : string) : M State unit :=
  set_state (fun st => mkState (form st) (errors st) (submitting st) (apiError st)
                               (Some target)).

(** [handleSubmit]; [create] is the call [createIdea(form)] it awaits. *)
Definition handleSubmit (create : StartupIdeaInput -> M State json) : M State unit :=
  setApiError None;;
  st ← get_state;
  let validationErrors := validate (form st) in
  if negb (Nat.eqb (size validationErrors) 0) then
    setErrors validationErrors
  else
    setSubmitting true;;
    try_finally
      (try_catch
         (res ← create (form st);
          idea_id ← js_prop res "idea_id";
          router_push ("/ideas/" +:+ value_String idea_id))
         (fun err =>
            let message :=
              if instanceof_Error err then message err
              else "Something went wrong" in
            setApiError (Some message)))
      (setSubmitting false).

End WithTrim.

End NewIdea.

(* ===================================================================== *)
(** ** More vocabulary and scenarios *)
(* ===================================================================== *)

Module Cases.

(** The request a call logged last. *)
Definition last_sent (w : World) : option Sent :=
  fst <$> last (net_log w).

(** A value that is neither [undefined] nor [null]. *)
Definition present (v : value) : bool :=
  match v with None | Some JNull => false | Some _ => true end.

(** The cells of the evaluation screen once [run] has begun, and once the
    call it generated or read the report with has settled with [o]. *)
Definition run_begun (st : EvaluationContent.State) : EvaluationContent.State :=
  EvaluationContent.mkState EvaluationContent.loading
    (EvaluationContent.report st) None (EvaluationContent.hasMR st)
    (EvaluationContent.hasPD st) (EvaluationContent.hasMVP st)
    (EvaluationContent.mvpGateOpen st).

Definition run_settled (active : bool) (o : exc json)
    (st : EvaluationContent.State) : EvaluationContent.State :=
  if active then
    match o with
    | Returns data =>
        if EvaluationContent.shape_invalid data
        then EvaluationContent.mkState EvaluationContent.error
               (EvaluationContent.report st)
               (Some EvaluationContent.invalid_response)
               (EvaluationContent.hasMR st) (EvaluationContent.hasPD st)
               (EvaluationContent.hasMVP st) (EvaluationContent.mvpGateOpen st)
        else EvaluationContent.mkState EvaluationContent.success data None
               (EvaluationContent.hasMR st) (EvaluationContent.hasPD st)
               (EvaluationContent.hasMVP st) (EvaluationContent.mvpGateOpen st)
    | Throws e =>
        EvaluationContent.mkState EvaluationContent.error
          (EvaluationContent.report st) (Some (message e))
          (EvaluationContent.hasMR st) (EvaluationContent.hasPD st)
          (EvaluationContent.hasMVP st) (EvaluationContent.mvpGateOpen st)
    end
  else run_begun st.

Definition ada : json :=
  JObj {[ "id" := JStr "u1"; "email" := JStr "ada@example.org";
          "username" := JStr "ada" ]}.

(** The backend of a signed-up user: who-am-I answers with [ada], a login
    with a fresh token. *)
Definition serving_ada : list Sent -> Sent -> FetchOutcome :=
  fun _ s =>
    if String.eqb (method s) "POST"
    then Responds 40 (mkResponse 200
           (Some (JObj {[ "access_token" := JStr "fresh"; "user" := ada ]})))
    else Responds 40 (mkResponse 200 (Some ada)).





(** A proxy that answers with a page of HTML and status 200. *)
Definition html_page : Response :=
  {| status := 200; json_body := None;
     json_error := "Unexpected token < in JSON at position 0" |}.

Definition misrouted : list Sent -> Sent -> FetchOutcome :=
  fun _ _ => Responds 40 html_page.

(** A backend whose server fails. *)
Definition failing : list Sent -> Sent -> FetchOutcome :=
  fun _ _ => Responds 40 (mkResponse 500
                 (Some (JObj {[ "detail" := JStr "Internal error" ]}))).

(** A backend that refuses every request as FastAPI refuses one that fails
    validation: the [detail] of the error body is a list. *)
Definition unprocessable : Response :=
  mkResponse 422
    (Some (JObj
       {[ "detail" := JArr [JObj {[ "msg" := JStr "field required" ]}] ]})).

Definition refusing : list Sent -> Sent -> FetchOutcome :=
  fun _ _ => Responds 40 unprocessable.

Definition good_form : NewIdea.StartupIdeaInput :=
  NewIdea.mkInput "FinBot" "Bookkeeping for freelancers" "Fintech" "B2B"
    "Global" "SMB" "Subscription" 29 50 900 2 (1 # 2) (3 # 10).

Definition empty_form : NewIdea.StartupIdeaInput :=
  NewIdea.mkInput "" "" "" "" "" "" "" 0 0 0 1 (1 # 2) (3 # 10).



End Cases.
Import Cases.

(* ===================================================================== *)
(** ** The request client *)
(* ===================================================================== *)

Implicit Types (w : World) (path : string) (options : RequestInit).

(** [request] in closed form: one request is logged, and only a 401 touches
    localStorage. *)
Lemma request_unfold {S} path options timeoutMs (st : S) w :
  request path options timeoutMs st w =
  let s := request_sent path options w in
  match race (served path options w) (default DEFAULT_TIMEOUT_MS timeoutMs) with
  | (Rejected e, fate) =>
      (Throws (if is_AbortError e then Error timeout_message else e),
       st, log_request s fate w)
  | (Resolved res, fate) =>
      if ok res then
        (match json_body res with
         | Some data => Returns data
         | None => Throws (SyntaxError (json_error res))
         end, st, log_request s fate w)
      else
        (Throws (ApiError (status res) (detail_of res)), st,
         if (status res =? 401)%N
         then set_localStorage (delete TOKEN_KEY (localStorage w))
                               (log_request s fate w)
         else log_request s fate w)
  end.
Proof.
  unfold request, served, request_sent, getToken, fetch, clearToken, modify_world,
    get_world, throw, mbind, M_bind, mret, M_ret; cbn.
  destruct (race _ _) as [[res|e] fate]; cbn.
  - destruct (ok res); cbn.
    + destruct (json_body res); reflexivity.
    + destruct (status res =? 401)%N; reflexivity.
  - destruct (is_AbortError e); reflexivity.
Qed.

(** The component state is neither read nor written by [request]. *)
Lemma request_outcome {S} path options timeoutMs (st : S) w :
  request path options timeoutMs st w =
  (fst (outcome (request path options timeoutMs) w), st,
   snd (outcome (request path options timeoutMs) w)).
Proof.
  unfold outcome. rewrite !request_unfold. cbn zeta.
  destruct (race _ _) as [[res|e] fate]; [destruct (ok res)|]; reflexivity.
Qed.

(** Every call logs exactly the request it sent and leaves the backend and
    the configuration alone. *)
Lemma request_log {S} path options timeoutMs (st : S) w r st' w' :
  request path options timeoutMs st w = (r, st', w') ->
  st' = st /\
  (exists fate, net_log w' = (net_log w ++ [(request_sent path options w, fate)])%list) /\
  backend w' = backend w /\
  NEXT_PUBLIC_API_URL w' = NEXT_PUBLIC_API_URL w.
Proof.
  rewrite request_unfold. cbn zeta.
  destruct (race _ _) as [[res|e] fate].
  - destruct (ok res).
    + intros [= <- <- <-]; cbn; eauto.
    + destruct (status res =? 401)%N; intros [= <- <- <-]; cbn; eauto.
  - intros [= <- <- <-]; cbn; eauto.
Qed.

(** The three ways a call ends: with the decoded body; with an exception
    other than a 401, localStorage untouched; with a 401, the token removed. *)
Lemma request_cases {S} path options timeoutMs (st : S) w :
  let s := request_sent path options w in
  (exists data fate,
     request path options timeoutMs st w = (Returns data, st, log_request s fate w)) \/
  (exists e fate,
     request path options timeoutMs st w = (Throws e, st, log_request s fate w) /\
     is_unauthorized e = false) \/
  (exists detail fate,
     request path options timeoutMs st w =
       (Throws (ApiError 401 detail), st,
        set_localStorage (delete TOKEN_KEY (localStorage w)) (log_request s fate w))).
Proof.
  intros s. rewrite request_unfold. fold s. unfold race.
  destruct (served path options w) as [latency res|latency reason|];
    [destruct (latency <? _)%N; [|right; left; eauto]
    |destruct (latency <? _)%N; right; left; eauto
    |right; left; eauto].
  destruct (ok res).
  - destruct (json_body res); [left|right; left]; eauto.
  - destruct (N.eqb_spec (status res) 401) as [E|Hne].
    + rewrite E. right; right; eauto.
    + right; left. do 2 eexists. split; [reflexivity|].
      cbn. apply N.eqb_neq. exact Hne.
Qed.

(** Without a usable token the client adds no [Authorization] header. *)
Lemma request_sent_anonymous path options w :
  token_truthy (stored_token w) = false ->
  headers (request_sent path options w) !! "Authorization" =
  init_headers options !! "Authorization".
Proof.
  unfold request_sent, stored_token. intros ->. cbn.
  rewrite lookup_union_l; [reflexivity|].
  rewrite lookup_singleton_ne; [reflexivity|discriminate].
Qed.

(** With one, it sends it as a bearer token. *)
Lemma request_sent_bearer path options w token :
  stored_token w = Some token ->
  token <> "" ->
  headers (request_sent path options w) !! "Authorization" =
  Some ("Bearer " +:+ token).
Proof.
  unfold request_sent, stored_token. intros -> Hne. cbn.
  destruct (String.eqb_spec token ""); [contradiction|]. cbn.
  apply lookup_insert_eq.
Qed.

(** A call adds one generate call when it is a POST and none otherwise. *)
Lemma request_generate_calls {S} path options timeoutMs (st : S) w r st' w' :
  request path options timeoutMs st w = (r, st', w') ->
  generate_calls w' =
  (generate_calls w +
   if String.eqb (default "GET" (init_method options)) "POST" then 1 else 0)%nat.
Proof.
  intros Hreq. apply request_log in Hreq as (_ & [fate Hlog] & _).
  unfold generate_calls. rewrite Hlog, List.filter_app, length_app.
  cbn. unfold is_post; cbn. destruct (String.eqb _ "POST"); reflexivity.
Qed.

Lemma outcome_request_generate_calls path options timeoutMs w r w' :
  outcome (request path options timeoutMs) w = (r, w') ->
  generate_calls w' =
  (generate_calls w +
   if String.eqb (default "GET" (init_method options)) "POST" then 1 else 0)%nat.
Proof.
  unfold outcome.
  destruct (request path options timeoutMs tt w) as [[r0 st0] w0] eqn:Hreq.
  intros [= _ <-]. exact (request_generate_calls _ _ _ _ _ _ _ _ Hreq).
Qed.

(** A backend that replies to a request does so whatever was sent before. *)
Lemma request_replied {S} path options (st : S) w0 w res :
  replies w0 (default "GET" (init_method options)) path res ->
  backend w = backend w0 ->
  NEXT_PUBLIC_API_URL w = NEXT_PUBLIC_API_URL w0 ->
  request path options None st w =
  if ok res then
    (match json_body res with
     | Some data => Returns data
     | None => Throws (SyntaxError (json_error res))
     end, st, log_request (request_sent path options w) Delivered w)
  else
    (Throws (ApiError (status res) (detail_of res)), st,
     if (status res =? 401)%N
     then set_localStorage (delete TOKEN_KEY (localStorage w))
            (log_request (request_sent path options w) Delivered w)
     else log_request (request_sent path options w) Delivered w).
Proof.
  intros Hreplies Hbackend Hurl. rewrite request_unfold. cbn zeta.
  unfold served. rewrite Hbackend.
  destruct (Hreplies (map fst (net_log w)) (request_sent path options w))
    as (latency & -> & Hlt).
  - reflexivity.
  - cbn. unfold API_BASE_URL. rewrite Hurl. reflexivity.
  - unfold race. cbn [default].
    destruct (N.ltb_spec latency DEFAULT_TIMEOUT_MS); [reflexivity|lia].
Qed.

(** C6. A call whose budget [timeoutMs] (120000 ms when omitted) elapses
    before the backend or the transport produces an outcome is aborted and
    throws the timeout error, and only such a call does; a transport failure
    throws the [TypeError] that [fetch] rejected with and a response that is
    not ok throws an [ApiError], both different from the timeout error. *)
Theorem request_timeout {S} path options timeoutMs (st : S) w :
  let budget := default DEFAULT_TIMEOUT_MS timeoutMs in
  let s := request_sent path options w in
  default DEFAULT_TIMEOUT_MS None = 120000%N /\
  (elapses (served path options w) budget <->
     request path options timeoutMs st w =
       (Throws (Error timeout_message), st, log_request s Aborted w)) /\
  (forall latency reason,
     served path options w = NetworkFails latency reason ->
     (latency < budget)%N ->
     request path options timeoutMs st w =
       (Throws (TypeError reason), st, log_request s Failed w)) /\
  (forall latency res,
     served path options w = Responds latency res ->
     (latency < budget)%N ->
     ok res = false ->
     fst (outcome (request path options timeoutMs) w) =
       Throws (ApiError (status res) (detail_of res))) /\
  (forall reason status detail,
     Error timeout_message <> TypeError reason /\
     Error timeout_message <> ApiError status detail /\
     instanceof_ApiError (Error timeout_message) = false).
Proof.
  intros budget s. split; [reflexivity|]. split; [|split; [|split]].
  - rewrite request_unfold. fold budget s. unfold elapses, race.
    destruct (served path options w) as [latency res|latency reason|]; cbn.
    + destruct (N.ltb_spec latency budget) as [Hlt|Hge].
      * split; [lia|]. destruct (ok res); [destruct (json_body res)|];
          intros [=].
      * split; [reflexivity|]. intros _. exact Hge.
    + destruct (N.ltb_spec latency budget) as [Hlt|Hge]; cbn.
      * split; [lia|]. intros [=].
      * split; [reflexivity|]. intros _. exact Hge.
    + split; [reflexivity|exact (fun _ => I)].
  - intros latency reason Hserved Hlt. rewrite request_unfold, Hserved.
    fold budget s. unfold race.
    destruct (N.ltb_spec latency budget); [reflexivity|lia].
  - intros latency res Hserved Hlt Hok.
    unfold outcome. rewrite request_unfold, Hserved. fold budget. unfold race.
    destruct (N.ltb_spec latency budget); [|lia]. cbn. rewrite Hok.
    reflexivity.
  - intros reason status detail. repeat split; discriminate.
Qed.

(** A backend that never answers: the call is aborted at 120000 ms. *)
Lemma request_timeout_witness :
  elapses (served "/auth/me" no_options (Scenario.signed_in Scenario.silent))
          DEFAULT_TIMEOUT_MS /\
  request "/auth/me" no_options None tt (Scenario.signed_in Scenario.silent) =
    (Throws (Error timeout_message), tt,
     log_request
       (request_sent "/auth/me" no_options (Scenario.signed_in Scenario.silent))
       Aborted (Scenario.signed_in Scenario.silent)).
Proof.
  split; [exact I|].
  apply (proj1 (proj1 (proj2
    (request_timeout "/auth/me" no_options None tt
       (Scenario.signed_in Scenario.silent))))).
  exact I.
Defined.

(** C3. A response with status 401 makes [request] remove the stored token
    and still throw the [ApiError]; a later call from a world without a
    stored token sends no [Authorization] header (unless the caller's own
    options carry one, which no call site does). *)
Theorem unauthorized_clears_token {S} path options timeoutMs (st : S) w latency res :
  served path options w = Responds latency res ->
  (latency < default DEFAULT_TIMEOUT_MS timeoutMs)%N ->
  status res = 401%N ->
  exists w',
    request path options timeoutMs st w =
      (Throws (ApiError 401 (detail_of res)), st, w') /\
    stored_token w' = None /\
    forall S' path' options' timeoutMs' (st' : S') w1 r st1 w2,
      stored_token w1 = None ->
      init_headers options' !! "Authorization" = None ->
      request path' options' timeoutMs' st' w1 = (r, st1, w2) ->
      exists next fate,
        net_log w2 = (net_log w1 ++ [(next, fate)])%list /\
        headers next !! "Authorization" = None.
Proof.
  intros Hserved Hlt H401.
  eexists. split; [|split].
  - rewrite request_unfold, Hserved. unfold race.
    destruct (N.ltb_spec latency (default DEFAULT_TIMEOUT_MS timeoutMs)); [|lia].
    cbn zeta. unfold ok. rewrite H401. cbn. reflexivity.
  - unfold stored_token. cbn. apply lookup_delete_eq.
  - intros S' path' options' timeoutMs' st' w1 r st1 w2 Hnone Hopt Hreq.
    apply request_log in Hreq as (_ & [fate Hlog] & _).
    exists (request_sent path' options' w1), fate. split; [exact Hlog|].
    rewrite request_sent_anonymous; [exact Hopt|]. rewrite Hnone. reflexivity.
Qed.

(** A signed-in browser whose who-am-I call is answered with a 401. *)
Lemma unauthorized_clears_token_witness :
  exists w',
    request "/auth/me" no_options None tt (Scenario.signed_in Scenario.rejecting) =
      (Throws (ApiError 401 "Not authenticated"), tt, w') /\
    stored_token w' = None.
Proof.
  destruct (unauthorized_clears_token "/auth/me" no_options None tt
              (Scenario.signed_in Scenario.rejecting) 40 Scenario.not_authenticated)
    as (w' & Hreq & Hnone & _).
  - reflexivity.
  - reflexivity.
  - reflexivity.
  - exists w'. split; [exact Hreq | exact Hnone].
Defined.

(** C10, as the code has it. [login] writes the token only after the login
    request has returned: on success the stored token is the [access_token]
    of the response; when the call throws, [login] stores nothing and
    localStorage is as before, except that a 401 response has made the
    request client remove the stored token. *)
Theorem login_token_storage {S} email password (st : S) w :
  let '(r, _, w') := login email password st w in
  match r with
  | Returns data =>
      stored_token w' = Some (value_String (js_get "access_token" data)) /\
      (forall token, js_get "access_token" data = Some (JStr token) ->
                     stored_token w' = Some token)
  | Throws e =>
      if is_unauthorized e
      then localStorage w' = delete TOKEN_KEY (localStorage w)
      else localStorage w' = localStorage w
  end.
Proof.
  unfold login, mbind, M_bind.
  destruct (request_cases "/auth/login" (POST (Some (credentials email password)))
              None st w)
    as [(data & fate & ->)|[(e & fate & -> & ->)|(detail & fate & ->)]];
    cbn; try reflexivity.
  destruct data; cbn; try reflexivity;
    (split; [apply lookup_insert_eq|]);
    intros token Htok; try discriminate.
  unfold stored_token; cbn. rewrite lookup_insert_eq.
  cbn in Htok. rewrite Htok. reflexivity.
Qed.

(** A successful login stores the token of the response. *)
Lemma login_token_storage_witness :
  let '(r, _, w') :=
    login "ada@example.org" "pw" tt
      (Scenario.signed_out
         (Scenario.holding (JObj {[ "access_token" := JStr "fresh" ]}))) in
  r = Returns (JObj {[ "access_token" := JStr "fresh" ]}) /\
  stored_token w' = Some "fresh".
Proof.
  pose proof (login_token_storage "ada@example.org" "pw" tt
    (Scenario.signed_out
       (Scenario.holding (JObj {[ "access_token" := JStr "fresh" ]})))) as H.
  destruct (login _ _ _ _) as [[r st'] w'] eqn:Hlogin.
  vm_compute in Hlogin. injection Hlogin as <- <- <-.
  destruct H as [_ H]. split; [reflexivity|]. apply H. reflexivity.
Defined.

(** C10 as stated fails: a 401 answer to the login request removes the
    token that was stored. *)
Lemma login_failure_changes_storage :
  let w := Scenario.signed_in Scenario.rejecting in
  let '(r, w') := outcome (login "ada@example.org" "wrong") w in
  r = Throws (ApiError 401 "Not authenticated") /\
  stored_token w = Some "t0k3n" /\
  stored_token w' = None /\
  localStorage w' <> localStorage w.
Proof.
  vm_compute. repeat split. discriminate.
Qed.

(** C7. [refresh] always settles, and with [loading] false.  Without a
    persisted token [user] is null and nothing is sent; with one, a failed
    who-am-I call leaves the token removed and [user] null, and a successful
    one sets [user] to the snapshot it returned. *)
Theorem refresh_settles (st : AuthContext.AuthState) w :
  let '(r, st', w') := AuthContext.refresh st w in
  r = Returns tt /\
  AuthContext.loading st' = false /\
  (stored_token w = None ->
     AuthContext.user st' = JNull /\ net_log w' = net_log w) /\
  (token_truthy (stored_token w) = true ->
     match outcome getMe w with
     | (Returns me, w1) => AuthContext.user st' = me /\ w' = w1
     | (Throws _, w1) =>
         AuthContext.user st' = JNull /\ stored_token w' = None /\
         net_log w' = net_log w1
     end).
Proof.
  unfold AuthContext.refresh, getToken, get_world, mbind, M_bind, mret, M_ret,
    stored_token.
  destruct (token_truthy (localStorage w !! TOKEN_KEY)) eqn:Htoken; cbn.
  - unfold try_finally, try_catch, getMe, mbind, M_bind.
    rewrite request_outcome.
    destruct (outcome (request "/auth/me" no_options None) w) as [[me|e] w1];
      cbn; (split; [reflexivity|]); (split; [reflexivity|]);
      (split; [intros Hn; rewrite Hn in Htoken; discriminate|]); intros _.
    + split; reflexivity.
    + split; [reflexivity|]. split; [apply lookup_delete_eq|reflexivity].
  - repeat split; try reflexivity. discriminate.
Qed.

(** A persisted token that the backend rejects. *)
Lemma refresh_settles_witness :
  let '(r, st', w') :=
    AuthContext.refresh AuthContext.initial (Scenario.signed_in Scenario.rejecting) in
  r = Returns tt /\ AuthContext.loading st' = false /\
  AuthContext.user st' = JNull /\ stored_token w' = None.
Proof.
  pose proof (refresh_settles AuthContext.initial
                (Scenario.signed_in Scenario.rejecting)) as H.
  destruct (AuthContext.refresh _ _) as [[r st'] w'].
  destruct H as (Hr & Hloading & _ & Hfail).
  specialize (Hfail eq_refl).
  vm_compute in Hfail. destruct Hfail as (Huser & Htoken & _).
  split; [exact Hr|]. split; [exact Hloading|]. split; [exact Huser|exact Htoken].
Defined.

(** C8. For a [user] of its declared type ([null] or a [UserPublic] object):
    while [loading] the guard renders the placeholder and does not
    redirect; once [loading] is false it renders its children exactly when
    [user] is not null, and otherwise renders nothing and redirects to the
    login page. *)
Theorem route_guard_behaviour (user : json) (loading : bool) :
  (user = JNull \/ exists fields, user = JObj fields) ->
  (loading = true ->
     Guard.RouteGuard user loading = Guard.Placeholder /\
     Guard.RouteGuard_effect user loading = None) /\
  (loading = false ->
     (Guard.RouteGuard user loading = Guard.Children <-> user <> JNull) /\
     (user <> JNull -> Guard.RouteGuard_effect user loading = None) /\
     (user = JNull ->
        Guard.RouteGuard user loading = Guard.Nothing /\
        Guard.RouteGuard_effect user loading = Some "/auth/login")).
Proof.
  intros Htyped. split; intros ->.
  - split; reflexivity.
  - destruct Htyped as [->|[fields ->]]; cbn.
    + split; [split; [discriminate|congruence]|].
      split; [congruence|]. intros _. split; reflexivity.
    + split; [split; [discriminate|reflexivity]|].
      split; [reflexivity|discriminate].
Qed.

(** The guard with no user, while loading and after, and with a user. *)
Lemma route_guard_behaviour_witness :
  Guard.RouteGuard JNull true = Guard.Placeholder /\
  Guard.RouteGuard_effect JNull true = None /\
  Guard.RouteGuard JNull false = Guard.Nothing /\
  Guard.RouteGuard_effect JNull false = Some "/auth/login" /\
  Guard.RouteGuard (JObj {[ "id" := JStr "u1" ]}) false = Guard.Children.
Proof.
  destruct (route_guard_behaviour JNull true (or_introl eq_refl)) as [Hwait _].
  destruct (Hwait eq_refl) as [Hplaceholder Hquiet].
  destruct (route_guard_behaviour JNull false (or_introl eq_refl)) as [_ Hout].
  destruct (Hout eq_refl) as (_ & _ & Hnull).
  destruct (Hnull eq_refl) as [Hnothing Hredirect].
  destruct (route_guard_behaviour (JObj {[ "id" := JStr "u1" ]}) false
              (or_intror (ex_intro _ _ eq_refl))) as [_ Hin].
  destruct (Hin eq_refl) as ([_ Hchildren] & _).
  split; [exact Hplaceholder|]. split; [exact Hquiet|].
  split; [exact Hnothing|]. split; [exact Hredirect|].
  apply Hchildren. discriminate.
Defined.

(** What [run] leaves in [status] for a report it obtained. *)
Lemma run_generate_calls_get ideaId w r w1 :
  outcome (getEvaluation ideaId) w = (r, w1) ->
  generate_calls w1 = generate_calls w.
Proof.
  intros H. apply outcome_request_generate_calls in H. cbn in H. lia.
Qed.

Lemma run_generate_calls_post ideaId w r w1 :
  outcome (evaluateIdea ideaId) w = (r, w1) ->
  generate_calls w1 = S (generate_calls w).
Proof.
  intros H. apply outcome_request_generate_calls in H. cbn in H. lia.
Qed.

(** What [run] does on a mounted screen, by the outcome of the read and,
    after a 404, of the generate call. *)
Lemma run_cases ideaId (st : EvaluationContent.State) w :
  let settled data st' :=
    if EvaluationContent.shape_invalid data
    then EvaluationContent.status st' = EvaluationContent.error /\
         EvaluationContent.error_message st' =
           Some EvaluationContent.invalid_response
    else EvaluationContent.status st' = EvaluationContent.success /\
         EvaluationContent.report st' = data in
  let failed e st' :=
    EvaluationContent.status st' = EvaluationContent.error /\
    EvaluationContent.error_message st' = Some (message e) in
  let '(r, st', w') := EvaluationContent.run ideaId true st w in
  r = Returns tt /\
  match outcome (getEvaluation ideaId) w with
  | (Returns data, _) => generate_calls w' = generate_calls w /\ settled data st'
  | (Throws e, w1) =>
      if is_404 e then
        generate_calls w' = S (generate_calls w) /\
        match outcome (evaluateIdea ideaId) w1 with
        | (Returns data, _) => settled data st'
        | (Throws e', _) => failed e' st'
        end
      else generate_calls w' = generate_calls w /\ failed e st'
  end.
Proof.
  unfold EvaluationContent.run, EvaluationContent.setStatus,
    EvaluationContent.setError, EvaluationContent.setReport, set_state,
    try_catch, throw, mbind, M_bind, mret, M_ret.
  cbn beta iota zeta.
  unfold getEvaluation at 1. rewrite request_outcome.
  fold (getEvaluation (S:=unit) ideaId).
  destruct (outcome (getEvaluation ideaId) w) as [[data|e] w1] eqn:Hget;
    cbn [fst snd]; apply run_generate_calls_get in Hget.
  - destruct (EvaluationContent.shape_invalid data); cbn; auto.
  - destruct (is_404 e); cbn.
    + unfold evaluateIdea at 1. rewrite request_outcome.
      fold (evaluateIdea (S:=unit) ideaId).
      destruct (outcome (evaluateIdea ideaId) w1) as [[data|e'] w2] eqn:Hpost;
        cbn [fst snd]; apply run_generate_calls_post in Hpost.
      * destruct (EvaluationContent.shape_invalid data); cbn;
          (split; [reflexivity|]); (split; [congruence|split; reflexivity]).
      * cbn. split; [reflexivity|]. split; [congruence|]. split; reflexivity.
    + split; [reflexivity|]. split; [exact Hget|]. split; reflexivity.
Qed.

(** What [load] does on a mounted market-research screen. *)
Lemma load_cases ideaId (st : MarketResearchContent.State) w :
  let '(r, st', w') := MarketResearchContent.load ideaId true st w in
  r = Returns tt /\
  generate_calls w' = generate_calls w /\
  match outcome (getMarketResearchByIdea ideaId) w with
  | (Returns _, _) => True
  | (Throws e, _) =>
      MarketResearchContent.status st' =
        (if is_404 e then MarketResearchContent.idle
         else MarketResearchContent.error)
  end.
Proof.
  unfold MarketResearchContent.load, MarketResearchContent.load_begin,
    MarketResearchContent.load_try, MarketResearchContent.setStatus,
    MarketResearchContent.setError, MarketResearchContent.setResearch,
    set_state, try_catch, mbind, M_bind, mret, M_ret.
  cbn beta iota.
  unfold getMarketResearchByIdea at 1. rewrite request_outcome.
  fold (getMarketResearchByIdea (S:=unit) ideaId).
  destruct (outcome (getMarketResearchByIdea ideaId) w) as [[data|e] w1] eqn:Hget;
    cbn [fst snd];
    apply outcome_request_generate_calls in Hget; cbn in Hget.
  - destruct data; cbn; (split; [reflexivity|]); (split; [lia|exact I]).
  - destruct (is_404 e); cbn; (split; [reflexivity|]); (split; [lia|reflexivity]).
Qed.

(** C1, as the code has it.  On the evaluation screen, still mounted: a 404
    on the read is followed by exactly one generate call, and the state ends
    [success] when the generated report passes the shape test and [error]
    when the generate call fails (or the report does not pass); any other
    read failure sends no generate call and ends in [error].  On the
    market-research screen [load] never sends a generate call: a 404 on the
    read leaves [idle], any other read failure [error]. *)
Theorem read_then_generate ideaId
    (st : EvaluationContent.State) (st_mr : MarketResearchContent.State) w :
  (let '(r, st', w') := EvaluationContent.run ideaId true st w in
   r = Returns tt /\
   match outcome (getEvaluation ideaId) w with
   | (Returns _, _) => True
   | (Throws e, w1) =>
       if is_404 e then
         generate_calls w' = S (generate_calls w) /\
         match outcome (evaluateIdea ideaId) w1 with
         | (Returns data, _) =>
             EvaluationContent.status st' =
               (if EvaluationContent.shape_invalid data
                then EvaluationContent.error else EvaluationContent.success)
         | (Throws _, _) =>
             EvaluationContent.status st' = EvaluationContent.error
         end
       else
         generate_calls w' = generate_calls w /\
         EvaluationContent.status st' = EvaluationContent.error
   end) /\
  (let '(r, st', w') := MarketResearchContent.load ideaId true st_mr w in
   r = Returns tt /\
   generate_calls w' = generate_calls w /\
   match outcome (getMarketResearchByIdea ideaId) w with
   | (Returns _, _) => True
   | (Throws e, _) =>
       MarketResearchContent.status st' =
         (if is_404 e then MarketResearchContent.idle
          else MarketResearchContent.error)
   end).
Proof.
  split; [|apply load_cases].
  pose proof (run_cases ideaId st w) as H. cbn zeta in H.
  destruct (EvaluationContent.run ideaId true st w) as [[r st'] w'].
  destruct H as [Hr H]. split; [exact Hr|].
  destruct (outcome (getEvaluation ideaId) w) as [[data|e] w1]; [exact I|].
  destruct (is_404 e).
  - destruct H as [Hcalls H]. split; [exact Hcalls|].
    destruct (outcome (evaluateIdea ideaId) w1) as [[data|e'] w2].
    + destruct (EvaluationContent.shape_invalid data); apply H.
    + apply H.
  - destruct H as [Hcalls H]. split; [exact Hcalls|apply H].
Qed.

(** C1 as stated fails on the market-research screen: the read is answered
    with a 404, no generate call follows and the state is [idle]. *)
Lemma load_404_sends_no_generate :
  let w := Scenario.signed_in (Scenario.nothing_stored Scenario.completed_research) in
  fst (outcome (getMarketResearchByIdea "abc123") w) =
    Throws (ApiError 404 "Not found") /\
  let '(r, st', w') :=
    MarketResearchContent.load "abc123" true MarketResearchContent.initial w in
  r = Returns tt /\
  generate_calls w' = 0%nat /\
  MarketResearchContent.status st' = MarketResearchContent.idle.
Proof.
  vm_compute. repeat split.
Qed.

(** C2, as the code has it.  Idea "abc123": when GET
    /ideas/abc123/evaluation is answered with a 404 and POST
    /ideas/abc123/evaluate with 200 and a body whose
    [module_scores.final_viability_score] is 72.5, the mounted evaluation
    screen ends in [success] after one POST, and the [finalScore] its view
    reads from the stored report is 72.5.  The render that follows returns
    the report, with 72.5 as its hero score, exactly when the body also has
    a [summary] and [normalized_signals] that are neither missing nor
    [null]; otherwise it throws a [TypeError] and nothing is displayed. *)
Theorem evaluation_end_to_end (st : EvaluationContent.State) w res404 data scores :
  replies w "GET" "/ideas/abc123/evaluation" res404 ->
  status res404 = 404%N ->
  replies w "POST" "/ideas/abc123/evaluate" (mkResponse 200 (Some data)) ->
  js_get "module_scores" data = Some scores ->
  js_get "final_viability_score" scores = Some (JNum "72.5") ->
  let '(r, st', w') := EvaluationContent.run "abc123" true st w in
  r = Returns tt /\
  EvaluationContent.status st' = EvaluationContent.success /\
  EvaluationContent.finalScore st' = Some (JNum "72.5") /\
  generate_calls w' = S (generate_calls w) /\
  match EvaluationContent.render st' with
  | Returns view =>
      (exists shown,
         view = EvaluationContent.ReportPage shown /\
         EvaluationContent.hero_score shown = "72.5") /\
      is_nullish (js_get "summary" data) = false /\
      is_nullish (js_get "normalized_signals" data) = false
  | Throws e =>
      (exists m, e = TypeError m) /\
      (is_nullish (js_get "summary" data) = true \/
       is_nullish (js_get "normalized_signals" data) = true)
  end.
Proof.
  intros Hget H404 Hpost Hscores Hfinal.
  pose proof (run_cases "abc123" st w) as H. cbn zeta in H.
  destruct (EvaluationContent.run "abc123" true st w) as [[r st'] w'].
  destruct H as [Hr H]. split; [exact Hr|].
  unfold outcome, getEvaluation in H.
  rewrite (request_replied ("/ideas/" +:+ "abc123" +:+ "/evaluation") no_options
             tt w w res404 Hget eq_refl eq_refl) in H.
  unfold ok in H. rewrite H404 in H. cbn in H.
  destruct H as [Hcalls H].
  unfold outcome, evaluateIdea in H.
  rewrite request_replied
    with (w0 := w) (res := mkResponse 200 (Some data)) in H;
    [|exact Hpost|reflexivity|reflexivity].
  cbn in H.
  assert (Hvalid : EvaluationContent.shape_invalid data = false).
  { unfold EvaluationContent.shape_invalid. rewrite Hscores. cbn.
    rewrite Hfinal. destruct data, scores; try discriminate. reflexivity. }
  rewrite Hvalid in H. destruct H as [Hstatus Hreport].
  split; [exact Hstatus|]. split; [|split; [exact Hcalls|]].
  { unfold EvaluationContent.finalScore. rewrite Hreport, Hscores. exact Hfinal. }
  unfold EvaluationContent.render, EvaluationContent.render_report.
  rewrite Hstatus, Hreport.
  destruct data as [| | | | |fields]; try discriminate.
  destruct scores as [| | | | |score_fields]; try discriminate.
  cbn in Hscores, Hfinal.
  unfold read, mbind, exc_bind, mret, exc_ret. cbn [is_null js_get].
  rewrite Hscores. cbn [js_get]. rewrite Hfinal.
  destruct (fields !! "summary") as [[| | | | |]|];
    destruct (fields !! "normalized_signals") as [[| | | | |]|];
    cbn [is_nullish];
    first [ split; [eexists; split; reflexivity|split; reflexivity]
          | split; [eexists; reflexivity|left; reflexivity]
          | split; [eexists; reflexivity|right; reflexivity] ].
Qed.

(** The scenario against a backend with nothing stored, which generates a
    full report. *)
Lemma evaluation_end_to_end_witness :
  let '(r, st', w') :=
    EvaluationContent.run "abc123" true EvaluationContent.initial
      (Scenario.signed_in (Scenario.nothing_stored Scenario.full_report_72_5)) in
  EvaluationContent.status st' = EvaluationContent.success /\
  EvaluationContent.finalScore st' = Some (JNum "72.5") /\
  exists shown,
    EvaluationContent.render st' = Returns (EvaluationContent.ReportPage shown) /\
    EvaluationContent.hero_score shown = "72.5".
Proof.
  pose proof (evaluation_end_to_end EvaluationContent.initial
    (Scenario.signed_in (Scenario.nothing_stored Scenario.full_report_72_5))
    Scenario.not_found Scenario.full_report_72_5
    (JObj {[ "problem_intensity" := JNum "80";
             "market_timing" := JNum "70";
             "competition_pressure" := JNum "65";
             "market_potential" := JNum "75";
             "execution_feasibility" := JNum "72";
             "final_viability_score" := JNum "72.5" ]})) as H.
  destruct (EvaluationContent.run _ _ _ _) as [[r st'] w'].
  destruct H as (_ & Hstatus & Hscore & _ & Hrender).
  - intros hist s Hm Hu. exists 40%N. cbn. unfold Scenario.nothing_stored.
    rewrite Hm. split; reflexivity.
  - reflexivity.
  - intros hist s Hm Hu. exists 900%N. cbn. unfold Scenario.nothing_stored.
    rewrite Hm. split; reflexivity.
  - reflexivity.
  - reflexivity.
  - split; [exact Hstatus|]. split; [exact Hscore|].
    destruct (EvaluationContent.render st') as [view|e].
    + destruct Hrender as [(shown & -> & Hhero) _]. exists shown.
      split; [reflexivity|exact Hhero].
    + destruct Hrender as [_ [Hmissing|Hmissing]]; discriminate.
Defined.

(** C2 as stated fails: with the body of the example, which has only
    [module_scores], the screen ends in [success] and the render of the
    report throws when it reads [summary.verdict]: no score is displayed. *)
Lemma evaluation_bare_report_not_displayed :
  let '(r, st', w') :=
    EvaluationContent.run "abc123" true EvaluationContent.initial
      (Scenario.signed_in (Scenario.nothing_stored Scenario.report_72_5)) in
  EvaluationContent.status st' = EvaluationContent.success /\
  EvaluationContent.finalScore st' = Some (JNum "72.5") /\
  EvaluationContent.render st' =
    Throws (TypeError "Cannot read properties of undefined (reading 'verdict')").
Proof.
  vm_compute. repeat split.
Qed.

(** In the updated list the records of the generated type are the new record
    alone, and the records of every other type are those of the old list. *)
Lemma records_of_type_update key result prev :
  records_of_type key (LegalContent.update_documents result prev) =
  if is_string key (LegalContent.document_type result)
  then [result]
  else records_of_type key prev.
Proof.
  unfold records_of_type, LegalContent.update_documents. cbn [List.filter].
  destruct (is_string key (LegalContent.document_type result)) eqn:Hkey.
  - f_equal. induction prev as [|d prev IH]; [reflexivity|].
    cbn [List.filter].
    destruct (strict_eq (LegalContent.document_type d)
                        (LegalContent.document_type result)) eqn:Hsame;
      cbn [negb]; [exact IH|].
    cbn [List.filter].
    destruct (is_string key (LegalContent.document_type d)) eqn:Hd; [|exact IH].
    exfalso. unfold is_string in Hkey, Hd.
    destruct (LegalContent.document_type result) as [[| | |t| |]|]; try discriminate.
    destruct (LegalContent.document_type d) as [[| | |t'| |]|]; try discriminate.
    apply String.eqb_eq in Hkey, Hd. subst. cbn in Hsame.
    rewrite String.eqb_refl in Hsame. discriminate.
  - induction prev as [|d prev IH]; [reflexivity|].
    cbn [List.filter].
    destruct (is_string key (LegalContent.document_type d)) eqn:Hd.
    + assert (Hkeep : strict_eq (LegalContent.document_type d)
                                (LegalContent.document_type result) = false).
      { unfold is_string in Hkey, Hd.
        destruct (LegalContent.document_type d) as [[| | |t'| |]|]; try discriminate.
        apply String.eqb_eq in Hd. subst.
        destruct (LegalContent.document_type result) as [[| | |t| |]|];
          try reflexivity.
        cbn. rewrite String.eqb_sym. exact Hkey. }
      rewrite Hkeep. cbn [negb List.filter]. rewrite Hd. f_equal. exact IH.
    + destruct (negb _); [cbn [List.filter]; rewrite Hd|]; exact IH.
Qed.

(** The update keeps a list with at most one record per type such a list. *)
Lemma update_documents_one_per_type result prev :
  one_per_type prev -> one_per_type (LegalContent.update_documents result prev).
Proof.
  intros Hprev key. rewrite records_of_type_update.
  destruct (is_string key _); [cbn; lia|apply Hprev].
Qed.

(** C9, as the code has it.  A generate call that returns a record puts it
    in the list in place of every record of its [document_type] and keeps the
    records of the other types; a list with at most one record per document
    type stays so, and [getDocByType] finds the returned record once it is
    "generated".  This is what the updater does when it can read the
    [document_type] of the result and of every element of the list; when
    one of them is [null] the updater throws, the list is not updated and
    the screen is torn down.  A failed call leaves the list as it was.  The
    client does not establish the invariant itself: [fetchDocs] installs the
    list the backend sends as it is. *)
Theorem legal_documents_one_per_type ideaId docTypeKey (st : LegalContent.State) w :
  (let '(r, st', w') := LegalContent.handleGenerate ideaId docTypeKey st w in
   r = Returns tt /\
   LegalContent.generating st' = None /\
   match outcome (generateLegalDocument ideaId (GenerateLegalRequest docTypeKey)) w with
   | (Returns result, _) =>
       if LegalContent.reads_null result (LegalContent.documents st) then
         LegalContent.documents st' = LegalContent.documents st /\
         LegalContent.render_error st' =
           Some (TypeError "Cannot read properties of null (reading 'document_type')")
       else
         LegalContent.selectedDoc st' = result /\
         (forall key,
            records_of_type key (LegalContent.documents st') =
            if is_string key (LegalContent.document_type result)
            then [result]
            else records_of_type key (LegalContent.documents st)) /\
         (one_per_type (LegalContent.documents st) ->
          one_per_type (LegalContent.documents st')) /\
         (forall key,
            is_string key (LegalContent.document_type result) = true ->
            is_string "generated" (LegalContent.record_status result) = true ->
            LegalContent.getDocByType st' key = Some result)
   | (Throws _, _) =>
       LegalContent.documents st' = LegalContent.documents st /\
       LegalContent.render_error st' = LegalContent.render_error st
   end) /\
  (let '(_, st', _) := LegalContent.fetchDocs ideaId st w in
   forall res items,
     String.eqb ideaId "" = false ->
     fst (outcome (getLegalByIdea ideaId) w) = Returns res ->
     js_get "records" res = Some (JArr items) ->
     LegalContent.documents st' = items).
Proof.
  split.
  - unfold LegalContent.handleGenerate, LegalContent.handleGenerate_begin,
      LegalContent.handleGenerate_try, LegalContent.setGenerating,
      LegalContent.setError, LegalContent.setDocuments,
      LegalContent.setSelectedDoc, LegalContent.documents_updater,
      set_state, try_finally, try_catch, mbind, M_bind, mret, M_ret.
    cbn beta iota.
    unfold generateLegalDocument at 1. rewrite request_outcome.
    fold (generateLegalDocument (S:=unit) ideaId (GenerateLegalRequest docTypeKey)).
    destruct (outcome (generateLegalDocument ideaId _) w) as [[result|e] w1];
      cbn [fst snd LegalContent.documents].
    + destruct (LegalContent.reads_null result (LegalContent.documents st));
        cbn; (split; [reflexivity|]); (split; [reflexivity|]).
      * split; reflexivity.
      * split; [reflexivity|]. split; [|split].
        -- intros key. apply records_of_type_update.
        -- apply update_documents_one_per_type.
        -- intros key Htype Hstatus. unfold LegalContent.getDocByType. cbn.
           rewrite Htype, Hstatus. reflexivity.
    + cbn. repeat split.
  - destruct (LegalContent.fetchDocs ideaId st w) as [[r st'] w'] eqn:Hrun.
    intros res items Hid Hres Hrecords.
    unfold LegalContent.fetchDocs in Hrun. rewrite Hid in Hrun.
    unfold LegalContent.fetchDocs_try, LegalContent.setStatus,
      LegalContent.setError, LegalContent.setDocuments, set_state, try_catch,
      js_prop, throw, mbind, M_bind, mret, M_ret in Hrun.
    cbn beta iota in Hrun.
    unfold getLegalByIdea at 1 in Hrun. rewrite request_outcome in Hrun.
    fold (getLegalByIdea (S:=unit) ideaId) in Hrun. rewrite Hres in Hrun.
    destruct res; try discriminate. cbn in Hrecords, Hrun.
    rewrite Hrecords in Hrun. cbn in Hrun.
    injection Hrun as _ <- _. reflexivity.
Qed.

(** Generating a new NDA next to an old NDA and a privacy policy. *)
Lemma legal_documents_one_per_type_witness :
  let st := LegalContent.mkState LegalContent.success
              [Scenario.old_nda; Scenario.old_privacy] JNull None None None in
  let '(r, st', w') :=
    LegalContent.handleGenerate "abc123" "nda" st
      (Scenario.signed_in (Scenario.nothing_stored Scenario.new_nda)) in
  one_per_type (LegalContent.documents st) /\
  LegalContent.documents st' = [Scenario.new_nda; Scenario.old_privacy] /\
  one_per_type (LegalContent.documents st').
Proof.
  intros st.
  assert (Hbefore : one_per_type (LegalContent.documents st)).
  { assert (Hnda : LegalContent.document_type Scenario.old_nda = Some (JStr "nda"))
      by reflexivity.
    assert (Hprivacy : LegalContent.document_type Scenario.old_privacy =
                       Some (JStr "privacy_policy")) by reflexivity.
    intros key. unfold records_of_type, st.
    cbn [LegalContent.documents List.filter].
    rewrite Hnda, Hprivacy. cbn [is_string].
    destruct (String.eqb_spec "nda" key) as [<-|_];
      destruct (String.eqb "privacy_policy" _) eqn:Hp;
      try discriminate; cbn [List.filter length]; lia. }
  pose proof (legal_documents_one_per_type "abc123" "nda" st
    (Scenario.signed_in (Scenario.nothing_stored Scenario.new_nda))) as [H _].
  destruct (LegalContent.handleGenerate _ _ _ _) as [[r st'] w'] eqn:Hrun.
  destruct H as (_ & _ & H). vm_compute in H.
  destruct H as (_ & _ & Hafter & _).
  split; [exact Hbefore|]. split; [|exact (Hafter Hbefore)].
  vm_compute in Hrun. injection Hrun as _ <- _. reflexivity.
Defined.

(** C9 as stated fails: when the backend holds two NDAs for the idea, the
    list of the client holds both after the read. *)
Lemma fetchDocs_installs_duplicates :
  let '(_, st', _) :=
    LegalContent.fetchDocs "abc123" LegalContent.initial
      (Scenario.signed_in (Scenario.holding Scenario.two_ndas)) in
  LegalContent.status st' = LegalContent.success /\
  LegalContent.documents st' = [Scenario.old_nda; Scenario.new_nda] /\
  length (records_of_type "nda" (LegalContent.documents st')) = 2%nat /\
  ~ one_per_type (LegalContent.documents st').
Proof.
  vm_compute. split; [reflexivity|]. split; [reflexivity|].
  split; [reflexivity|]. intros H. specialize (H "nda"). vm_compute in H. lia.
Qed.

(** One status check: the flag is set whatever the read does. *)
Lemma status_check_unfold path expected
    (f : bool -> EvaluationContent.State -> EvaluationContent.State)
    (st : EvaluationContent.State) w :
  EvaluationContent.status_check (request path no_options None) expected
    (fun b => set_state (f b)) st w =
  let '(o, w1) := outcome (request path no_options None) w in
  (Returns tt,
   f match o with
     | Returns JNull | Throws _ => false
     | Returns r => is_string expected (js_get "status" r)
     end st,
   w1).
Proof.
  unfold EvaluationContent.status_check, set_state, try_catch, js_prop, throw,
    mbind, M_bind, mret, M_ret.
  rewrite request_outcome.
  destruct (outcome (request path no_options None) w) as [[r|e] w1];
    [destruct r|]; reflexivity.
Qed.

(** The market-research check of the agent status checks is their first
    request, and sets [hasMR] whatever the other two checks do. *)
Lemma agent_status_checks_hasMR ideaId (st : EvaluationContent.State) w :
  String.eqb ideaId "" = false ->
  EvaluationContent.hasMR
    (snd (fst (EvaluationContent.agent_status_checks ideaId st w))) =
  Some match fst (outcome (getMarketResearchByIdea ideaId) w) with
       | Returns r => is_string "completed" (js_get "status" r)
       | Throws _ => false
       end.
Proof.
  intros Hid. unfold EvaluationContent.agent_status_checks. rewrite Hid.
  unfold mbind at 1 2, M_bind at 1 2.
  unfold getMarketResearchByIdea, getPitchDeckByIdea, getMVPByIdea,
    EvaluationContent.setHasMR, EvaluationContent.setHasPD,
    EvaluationContent.setHasMVP.
  rewrite (status_check_unfold _ "completed"
             (fun x st => EvaluationContent.mkState (EvaluationContent.status st)
                (EvaluationContent.report st) (EvaluationContent.error_message st)
                (Some x) (EvaluationContent.hasPD st) (EvaluationContent.hasMVP st)
                (EvaluationContent.mvpGateOpen st))).
  destruct (outcome (request ("/market-research/idea/" +:+ ideaId) no_options None) w)
    as [o1 w1].
  rewrite (status_check_unfold _ "completed"
             (fun x st => EvaluationContent.mkState (EvaluationContent.status st)
                (EvaluationContent.report st) (EvaluationContent.error_message st)
                (EvaluationContent.hasMR st) (Some x) (EvaluationContent.hasMVP st)
                (EvaluationContent.mvpGateOpen st))).
  destruct (outcome (request ("/pitch-deck/idea/" +:+ ideaId) no_options None) w1)
    as [o2 w2].
  rewrite (status_check_unfold _ "generated"
             (fun x st => EvaluationContent.mkState (EvaluationContent.status st)
                (EvaluationContent.report st) (EvaluationContent.error_message st)
                (EvaluationContent.hasMR st) (EvaluationContent.hasPD st) (Some x)
                (EvaluationContent.mvpGateOpen st))).
  destruct (outcome (request ("/mvp/idea/" +:+ ideaId) no_options None) w2)
    as [o3 w3].
  cbn. destruct o1 as [[]|]; reflexivity.
Qed.

(** C5. The MVP gate on the evaluation screen.  The agent status checks
    fetch the status of the market research, and once they are done the MVP
    button is enabled exactly when that read returned a record whose status
    is "completed": then the button navigates to the MVP screen; otherwise
    (another status, no record, a failed read) it stays, opens the gating
    modal and names market research as what is missing.  In any state of
    the screen, also before the checks are done, the button navigates
    exactly when [hasMR] is true; and the decision is a function of that
    fetched status alone: screens in which [hasMR] is the same decide the
    same. *)
Theorem mvp_gate ideaId (st : EvaluationContent.State) w :
  String.eqb ideaId "" = false ->
  let completed :=
    match fst (outcome (getMarketResearchByIdea ideaId) w) with
    | Returns r => is_string "completed" (js_get "status" r)
    | Throws _ => false
    end in
  (let '(_, st1, w1) := EvaluationContent.agent_status_checks ideaId st w in
   EvaluationContent.hasMR st1 = Some completed /\
   let '(nav, st2, w2) := EvaluationContent.mvp_onClick ideaId st1 w1 in
   w2 = w1 /\
   if completed then
     nav = Returns (Some ("/mvp/" +:+ ideaId)) /\
     st2 = st1 /\
     EvaluationContent.mvp_title st1 = None
   else
     nav = Returns None /\
     EvaluationContent.mvpGateOpen st2 = true /\
     EvaluationContent.mvp_title st1 = Some "Requires completed market research" /\
     EvaluationContent.mvp_caption st1 = "Needs market research first") /\
  (let '(nav, st2, w2) := EvaluationContent.mvp_onClick ideaId st w in
   w2 = w /\
   if decide (EvaluationContent.hasMR st = Some true) then
     nav = Returns (Some ("/mvp/" +:+ ideaId)) /\
     st2 = st /\
     EvaluationContent.mvp_title st = None
   else
     nav = Returns None /\
     EvaluationContent.mvpGateOpen st2 = true /\
     EvaluationContent.mvp_title st = Some "Requires completed market research" /\
     EvaluationContent.mvp_caption st = "Needs market research first") /\
  (forall (st' : EvaluationContent.State) w',
     EvaluationContent.hasMR st' = EvaluationContent.hasMR st ->
     fst (fst (EvaluationContent.mvp_onClick ideaId st' w')) =
       fst (fst (EvaluationContent.mvp_onClick ideaId st w)) /\
     EvaluationContent.mvp_title st' = EvaluationContent.mvp_title st /\
     EvaluationContent.mvp_caption st' = EvaluationContent.mvp_caption st).
Proof.
  intros Hid completed. split; [|split].
  - pose proof (agent_status_checks_hasMR ideaId st w Hid) as HMR.
    fold completed in HMR.
    destruct (EvaluationContent.agent_status_checks ideaId st w) as [[r st1] w1].
    cbn [fst snd] in HMR. split; [exact HMR|].
    unfold EvaluationContent.mvp_onClick, EvaluationContent.setMvpGateOpen,
      EvaluationContent.mvp_title, EvaluationContent.mvp_caption,
      EvaluationContent.flag, set_state, get_state, mbind, M_bind, mret, M_ret.
    rewrite HMR. destruct completed; cbn; repeat split.
  - unfold EvaluationContent.mvp_onClick, EvaluationContent.setMvpGateOpen,
      EvaluationContent.mvp_title, EvaluationContent.mvp_caption,
      EvaluationContent.flag, set_state, get_state, mbind, M_bind, mret, M_ret.
    destruct (EvaluationContent.hasMR st) as [[|]|]; cbn;
      (split; [reflexivity|]); case_decide; try congruence; repeat split.
  - intros st' w' Hsame.
    unfold EvaluationContent.mvp_onClick, EvaluationContent.setMvpGateOpen,
      EvaluationContent.mvp_title, EvaluationContent.mvp_caption,
      EvaluationContent.flag, set_state, get_state, mbind, M_bind, mret, M_ret.
    rewrite Hsame.
    destruct (EvaluationContent.hasMR st) as [[|]|]; cbn; repeat split.
Qed.

(** Completed market research opens the MVP screen. *)
Lemma mvp_gate_witness :
  let w := Scenario.signed_in (Scenario.holding Scenario.completed_research) in
  let '(_, st1, w1) :=
    EvaluationContent.agent_status_checks "abc123" EvaluationContent.initial w in
  EvaluationContent.hasMR st1 = Some true /\
  fst (fst (EvaluationContent.mvp_onClick "abc123" st1 w1)) =
    Returns (Some "/mvp/abc123").
Proof.
  intros w.
  pose proof (mvp_gate "abc123" EvaluationContent.initial w eq_refl) as [H _].
  destruct (EvaluationContent.agent_status_checks _ _ _) as [[r st1] w1].
  destruct H as [HMR Hclick].
  split; [exact HMR|].
  destruct (EvaluationContent.mvp_onClick "abc123" st1 w1) as [[nav st2] w2].
  destruct Hclick as [_ Hclick].
  change (match fst (outcome (getMarketResearchByIdea "abc123") w) with
          | Returns r => is_string "completed" (js_get "status" r)
          | Throws _ => false
          end) with true in Hclick.
  destruct Hclick as [-> _]. reflexivity.
Defined.

(** [handleGenerate] and [load] are their first part followed by their
    [try] block on the settled call. *)
Lemma handleGenerate_split ideaId (st : MarketResearchContent.State) w :
  MarketResearchContent.handleGenerate ideaId st w =
  (Returns tt,
   cells_after
     (MarketResearchContent.handleGenerate_try
        (settled (fst (outcome (generateMarketResearch ideaId) w))))
     (cells_after MarketResearchContent.handleGenerate_begin st),
   snd (outcome (generateMarketResearch ideaId) w)).
Proof.
  unfold MarketResearchContent.handleGenerate,
    MarketResearchContent.handleGenerate_begin,
    MarketResearchContent.handleGenerate_try, MarketResearchContent.setStatus,
    MarketResearchContent.setError, MarketResearchContent.setResearch,
    cells_after, settled, set_state, try_catch, mbind, M_bind, mret, M_ret.
  cbn beta iota.
  unfold generateMarketResearch at 1. rewrite request_outcome.
  fold (generateMarketResearch (S:=unit) ideaId).
  destruct (outcome (generateMarketResearch ideaId) w) as [[data|e] w1];
    [destruct data|]; reflexivity.
Qed.

Lemma load_split ideaId active (st : MarketResearchContent.State) w :
  MarketResearchContent.load ideaId active st w =
  (Returns tt,
   cells_after
     (MarketResearchContent.load_try
        (settled (fst (outcome (getMarketResearchByIdea ideaId) w))) active)
     (cells_after MarketResearchContent.load_begin st),
   snd (outcome (getMarketResearchByIdea ideaId) w)).
Proof.
  unfold MarketResearchContent.load, MarketResearchContent.load_begin,
    MarketResearchContent.load_try, MarketResearchContent.setStatus,
    MarketResearchContent.setError, MarketResearchContent.setResearch,
    cells_after, settled, set_state, try_catch, mbind, M_bind, mret, M_ret.
  cbn beta iota.
  unfold getMarketResearchByIdea at 1. rewrite request_outcome.
  fold (getMarketResearchByIdea (S:=unit) ideaId).
  destruct (outcome (getMarketResearchByIdea ideaId) w) as [[data|e] w1];
    [destruct data, active|destruct active, (is_404 e) eqn:H404];
    cbn; rewrite ?H404; reflexivity.
Qed.

Lemma legal_handleGenerate_split ideaId key (st : LegalContent.State) w :
  let call := generateLegalDocument ideaId (GenerateLegalRequest key) in
  LegalContent.handleGenerate ideaId key st w =
  (Returns tt,
   cells_after (LegalContent.handleGenerate_try (settled (fst (outcome call w))))
     (cells_after (LegalContent.handleGenerate_begin key) st),
   snd (outcome call w)).
Proof.
  unfold LegalContent.handleGenerate, LegalContent.handleGenerate_begin,
    LegalContent.handleGenerate_try, LegalContent.setGenerating,
    LegalContent.setError, LegalContent.setDocuments, LegalContent.setSelectedDoc,
    cells_after, settled, set_state, try_finally, try_catch, mbind, M_bind,
    mret, M_ret.
  cbn beta iota zeta.
  unfold generateLegalDocument at 1. rewrite request_outcome.
  fold (generateLegalDocument (S:=unit) ideaId (GenerateLegalRequest key)).
  destruct (outcome (generateLegalDocument ideaId _) w) as [[result|e] w1];
    reflexivity.
Qed.

(** The render shows no generate button exactly in the two busy states. *)
Lemma no_button_iff_busy (st : MarketResearchContent.State) :
  MarketResearchContent.generate_buttons (MarketResearchContent.render st) = [] <->
  MarketResearchContent.status st = MarketResearchContent.loading \/
  MarketResearchContent.status st = MarketResearchContent.generating.
Proof.
  unfold MarketResearchContent.render.
  destruct (MarketResearchContent.status st); cbn;
    try destruct (_ || _); cbn; split;
    try discriminate; try (intros [?|?]; discriminate); auto.
Qed.

(** A call that settles on a mounted screen leaves neither busy state. *)
Lemma load_try_settles o (st : MarketResearchContent.State) :
  let st' := cells_after (MarketResearchContent.load_try (settled o) true) st in
  MarketResearchContent.status st' <> MarketResearchContent.loading /\
  MarketResearchContent.status st' <> MarketResearchContent.generating.
Proof.
  unfold cells_after, MarketResearchContent.load_try,
    MarketResearchContent.setStatus, MarketResearchContent.setError,
    MarketResearchContent.setResearch, settled, set_state, js_prop, throw,
    try_catch, mbind, M_bind, mret, M_ret.
  destruct o as [data|e]; [destruct data as [|b|n|s0|items|fields]|];
    cbn -[is_string];
    try match goal with |- context [is_string ?s ?v] => destruct (is_string s v) end;
    try destruct (is_404 e); cbn; split; discriminate.
Qed.

Lemma handleGenerate_try_settles o (st : MarketResearchContent.State) :
  let st' := cells_after (MarketResearchContent.handleGenerate_try (settled o)) st in
  MarketResearchContent.status st' <> MarketResearchContent.loading /\
  MarketResearchContent.status st' <> MarketResearchContent.generating.
Proof.
  unfold cells_after, MarketResearchContent.handleGenerate_try,
    MarketResearchContent.setStatus, MarketResearchContent.setError,
    MarketResearchContent.setResearch, settled, set_state, js_prop, throw,
    try_catch, mbind, M_bind, mret, M_ret.
  destruct o as [data|e]; [destruct data|]; cbn; split; discriminate.
Qed.

(** On the mounted market-research screen the calls in flight and the status
    go together: none and an idle, success or error status; the read and
    [loading]; one generate call and [generating]. *)
Lemma screen_invariant scr :
  rtc MarketResearchContent.step MarketResearchContent.mounted_screen scr ->
  match MarketResearchContent.in_flight scr with
  | [] =>
      MarketResearchContent.status (MarketResearchContent.cells scr) <>
        MarketResearchContent.loading /\
      MarketResearchContent.status (MarketResearchContent.cells scr) <>
        MarketResearchContent.generating
  | [MarketResearchContent.ReadCall] =>
      MarketResearchContent.status (MarketResearchContent.cells scr) =
        MarketResearchContent.loading
  | [MarketResearchContent.GenerateCall] =>
      MarketResearchContent.status (MarketResearchContent.cells scr) =
        MarketResearchContent.generating
  | _ => False
  end.
Proof.
  revert scr. apply rtc_ind_r.
  - reflexivity.
  - intros scr0 scr' Hreach Hstep IH.
    destruct Hstep as [scr b Hb|scr before after o Hfl|scr before after o Hfl]; cbn.
    + assert (Hquiet : ~ (MarketResearchContent.status (MarketResearchContent.cells scr)
                            = MarketResearchContent.loading \/
                          MarketResearchContent.status (MarketResearchContent.cells scr)
                            = MarketResearchContent.generating)).
      { intros Hbusy. apply no_button_iff_busy in Hbusy. rewrite Hbusy in Hb.
        inversion Hb. }
      destruct (MarketResearchContent.in_flight scr) as [|[|] [|c rest]];
        try contradiction; [reflexivity| |]; exfalso; apply Hquiet; auto.
    + rewrite Hfl in IH.
      destruct before as [|[|] [|c before]], after as [|c' after];
        try contradiction; try discriminate; cbn in IH |- *;
        try apply load_try_settles.
    + rewrite Hfl in IH.
      destruct before as [|[|] [|c before]], after as [|c' after];
        try contradiction; try discriminate; cbn in IH |- *;
        try apply handleGenerate_try_settles.
Qed.

(** C4, as the code has it.  [handleGenerate] tests nothing: whenever it is
    invoked it sends one generate call.  What keeps calls apart is the
    render: the market-research screen shows a button bound to
    [handleGenerate] in every state but [loading] and [generating], so that
    on a mounted screen at most one call is in flight at any time and no
    generate button is shown while one is.  On the legal screen the card of
    the document type held in [generating] is disabled and the other cards
    are not. *)
Theorem busy_screen_offers_no_generate ideaId (st : MarketResearchContent.State) w
    (legal : LegalContent.State) :
  (let '(r, _, w') := MarketResearchContent.handleGenerate ideaId st w in
   r = Returns tt /\ generate_calls w' = S (generate_calls w)) /\
  (MarketResearchContent.generate_buttons (MarketResearchContent.render st) = [] <->
   MarketResearchContent.status st = MarketResearchContent.loading \/
   MarketResearchContent.status st = MarketResearchContent.generating) /\
  (forall scr,
     rtc MarketResearchContent.step MarketResearchContent.mounted_screen scr ->
     (length (MarketResearchContent.in_flight scr) <= 1)%nat /\
     (MarketResearchContent.in_flight scr <> [] ->
      MarketResearchContent.generate_buttons
        (MarketResearchContent.render (MarketResearchContent.cells scr)) = [])) /\
  (forall key,
     LegalContent.card_disabled legal key = true <->
     LegalContent.generating legal = Some key).
Proof.
  split; [|split; [|split]].
  - rewrite handleGenerate_split. split; [reflexivity|].
    destruct (outcome (generateMarketResearch ideaId) w) as [o w1] eqn:Hpost.
    apply outcome_request_generate_calls in Hpost. cbn in Hpost |- *. lia.
  - apply no_button_iff_busy.
  - intros scr Hreach. apply screen_invariant in Hreach.
    destruct (MarketResearchContent.in_flight scr) as [|[|] [|c rest]];
      try contradiction; cbn; (split; [lia|]); intros Hne;
      try congruence; apply no_button_iff_busy; auto.
  - intros key. unfold LegalContent.card_disabled.
    destruct (LegalContent.generating legal) as [g|].
    + split.
      * intros H. apply String.eqb_eq in H. congruence.
      * intros [= ->]. apply String.eqb_refl.
    + split; discriminate.
Qed.

(** The screen with a generate call in flight shows no generate button. *)
Lemma busy_screen_offers_no_generate_witness :
  let scr :=
    MarketResearchContent.mkScreen
      (cells_after MarketResearchContent.handleGenerate_begin
         (cells_after
            (MarketResearchContent.load_try
               (settled (Throws (ApiError 404 "Not found"))) true)
            (cells_after MarketResearchContent.load_begin
               MarketResearchContent.initial)))
      [MarketResearchContent.GenerateCall] in
  rtc MarketResearchContent.step MarketResearchContent.mounted_screen scr /\
  MarketResearchContent.generate_buttons
    (MarketResearchContent.render (MarketResearchContent.cells scr)) = [].
Proof.
  intros scr.
  assert (Hreach : rtc MarketResearchContent.step
                     MarketResearchContent.mounted_screen scr).
  { eapply rtc_l.
    { apply (MarketResearchContent.read_settles
               MarketResearchContent.mounted_screen [] []
               (Throws (ApiError 404 "Not found"))). reflexivity. }
    eapply rtc_l; [|apply rtc_refl].
    refine (MarketResearchContent.click
              (MarketResearchContent.mkScreen _ [])
              MarketResearchContent.GenerateMarketResearch _).
    apply list_elem_of_here. }
  split; [exact Hreach|].
  destruct (busy_screen_offers_no_generate "abc123" MarketResearchContent.initial
              (Scenario.signed_out Scenario.silent) LegalContent.initial)
    as (_ & _ & Hscreen & _).
  apply (Hscreen scr Hreach). discriminate.
Defined.

(** C4 as stated fails: invoked on a screen that is already [generating],
    [handleGenerate] sends one more generate call; and on the legal screen,
    while one document is being generated, the card of another type is
    enabled and its click sends a second generate call for the same idea,
    so that two are in flight together. *)
Lemma handleGenerate_while_generating :
  let w := Scenario.signed_in (Scenario.nothing_stored Scenario.completed_research) in
  (MarketResearchContent.status Scenario.busy_research =
     MarketResearchContent.generating /\
   let '(r, st', w') :=
     MarketResearchContent.handleGenerate "abc123" Scenario.busy_research w in
   generate_calls w = 0%nat /\
   generate_calls w' = 1%nat /\
   length (net_log w') = S (length (net_log w))) /\
  (LegalContent.generating Scenario.busy_legal = Some "privacy_policy" /\
   LegalContent.card_disabled Scenario.busy_legal "nda" = false /\
   let '(r, st', w') := LegalContent.card_onClick "abc123" "nda" Scenario.busy_legal w in
   generate_calls w' = 1%nat) /\
  (exists scr,
     rtc LegalContent.step LegalContent.mounted_screen scr /\
     LegalContent.in_flight scr =
       [LegalContent.Generate "privacy_policy"; LegalContent.Generate "nda"]).
Proof.
  split; [vm_compute; repeat split|]. split; [vm_compute; repeat split|].
  eexists. split.
  - eapply rtc_l.
    { apply (LegalContent.docs_settle LegalContent.mounted_screen [] []
               (Returns (JObj {[ "records" := JArr [] ]}))). reflexivity. }
    eapply rtc_l.
    { apply (LegalContent.card_generate _ "privacy_policy");
        [reflexivity|set_solver|reflexivity|reflexivity]. }
    eapply rtc_l; [|apply rtc_refl].
    apply (LegalContent.card_generate _ "nda");
      [reflexivity|set_solver|reflexivity|reflexivity].
  - reflexivity.
Qed.

(* ===================================================================== *)
(** ** Further properties of the request client *)
(* ===================================================================== *)

(** What a call that the backend answers in time completes with. *)
Lemma request_answered {S} path options timeoutMs (st : S) w latency res :
  served path options w = Responds latency res ->
  (latency < default DEFAULT_TIMEOUT_MS timeoutMs)%N ->
  request path options timeoutMs st w =
  if ok res then
    (match json_body res with
     | Some data => Returns data
     | None => Throws (SyntaxError (json_error res))
     end, st, log_request (request_sent path options w) Delivered w)
  else
    (Throws (ApiError (status res) (detail_of res)), st,
     if (status res =? 401)%N
     then set_localStorage (delete TOKEN_KEY (localStorage w))
            (log_request (request_sent path options w) Delivered w)
     else log_request (request_sent path options w) Delivered w).
Proof.
  intros Hserved Hlt. rewrite request_unfold, Hserved. unfold race.
  destruct (N.ltb_spec latency (default DEFAULT_TIMEOUT_MS timeoutMs)); [|lia].
  reflexivity.
Qed.

Lemma last_sent_log s fate w :
  last_sent (log_request s fate w) = Some s.
Proof. unfold last_sent, log_request. cbn. rewrite last_snoc. reflexivity. Qed.

(** X1. [request] never retries: whatever the outcome, one call puts exactly
    one request on the wire, leaves the component state and the backend
    alone, and that request is aborted exactly when the call throws the
    timeout error. *)
Theorem request_sends_once {S} path options timeoutMs (st : S) w :
  let '(r, st', w') := request path options timeoutMs st w in
  st' = st /\
  backend w' = backend w /\
  exists fate,
    net_log w' = net_log w ++ [(request_sent path options w, fate)] /\
    (fate = Aborted <-> r = Throws (Error timeout_message)).
Proof.
  rewrite request_unfold. cbn zeta. unfold race.
  destruct (served path options w) as [latency res|latency reason|].
  - destruct (latency <? _)%N.
    + destruct (ok res).
      * split; [reflexivity|]. split; [reflexivity|]. exists Delivered.
        split; [reflexivity|]. split; [discriminate|].
        destruct (json_body res); discriminate.
      * destruct (status res =? 401)%N; (split; [reflexivity|]);
          (split; [reflexivity|]); exists Delivered;
          (split; [reflexivity|]); split; discriminate.
    + cbn. split; [reflexivity|]. split; [reflexivity|]. exists Aborted.
      split; [reflexivity|]. split; reflexivity.
  - destruct (latency <? _)%N; cbn.
    + split; [reflexivity|]. split; [reflexivity|]. exists Failed.
      split; [reflexivity|]. split; discriminate.
    + split; [reflexivity|]. split; [reflexivity|]. exists Aborted.
      split; [reflexivity|]. split; reflexivity.
  - cbn. split; [reflexivity|]. split; [reflexivity|]. exists Aborted.
    split; [reflexivity|]. split; reflexivity.
Qed.

(** X2. A response that arrives in time is returned exactly when its status
    lies in 200..299: then its JSON body is the result, and a body that is
    not JSON is a [SyntaxError] with the message the parser has for that
    body.  Any status below 200 or above 299 is thrown as an [ApiError]
    carrying that status and the [detail] of the error body. *)
Theorem request_returns_iff_ok {S} path options timeoutMs (st : S) w latency res :
  served path options w = Responds latency res ->
  (latency < default DEFAULT_TIMEOUT_MS timeoutMs)%N ->
  let r := fst (fst (request path options timeoutMs st w)) in
  ((200 <= status res <= 299)%N ->
     r = match json_body res with
         | Some data => Returns data
         | None => Throws (SyntaxError (json_error res))
         end) /\
  ((status res < 200 \/ 299 < status res)%N ->
     r = Throws (ApiError (status res) (detail_of res))).
Proof.
  intros Hserved Hlt r. subst r.
  rewrite (request_answered _ _ _ _ _ _ _ Hserved Hlt). unfold ok.
  split.
  - intros [Hlo Hhi].
    destruct (N.leb_spec 200 (status res)); [|lia].
    destruct (N.leb_spec (status res) 299); [|lia]. reflexivity.
  - intros Hout.
    destruct (N.leb_spec 200 (status res)); [|reflexivity].
    destruct (N.leb_spec (status res) 299); [lia|reflexivity].
Qed.

(** A page of HTML served with status 200 is the parser's complaint about
    that page. *)
Lemma request_returns_iff_ok_witness :
  fst (fst (request "/auth/me" no_options None tt
              (Scenario.signed_in Cases.misrouted))) =
  Throws (SyntaxError "Unexpected token < in JSON at position 0").
Proof.
  apply (proj1 (request_returns_iff_ok "/auth/me" no_options None tt
                  (Scenario.signed_in Cases.misrouted) 40 Cases.html_page
                  eq_refl eq_refl)).
  cbn. lia.
Defined.

(** X3. The request that goes out: the URL is the base URL followed by the
    path, the method defaults to GET, [Content-Type] is application/json
    unless the caller's headers override it, a stored non-empty token is
    sent as [Authorization: Bearer <token>] even over a caller's own
    [Authorization], an absent or empty token adds nothing, and every other
    header is the caller's. *)
Theorem request_headers {S} path options timeoutMs (st : S) w :
  let '(_, _, w') := request path options timeoutMs st w in
  exists s,
    last_sent w' = Some s /\
    url s = API_BASE_URL w +:+ path /\
    method s = default "GET" (init_method options) /\
    body s = init_body options /\
    headers s !! "Content-Type" =
      Some (default "application/json" (init_headers options !! "Content-Type")) /\
    (forall token, stored_token w = Some token -> token <> "" ->
       headers s !! "Authorization" = Some ("Bearer " +:+ token)) /\
    (token_truthy (stored_token w) = false ->
       headers s !! "Authorization" = init_headers options !! "Authorization") /\
    (forall k, k <> "Content-Type" -> k <> "Authorization" ->
       headers s !! k = init_headers options !! k).
Proof.
  destruct (request path options timeoutMs st w) as [[r st'] w'] eqn:Hreq.
  apply request_log in Hreq as (_ & [fate Hlog] & _).
  exists (request_sent path options w).
  split; [unfold last_sent; rewrite Hlog, last_snoc; reflexivity|].
  split; [reflexivity|]. split; [reflexivity|]. split; [reflexivity|].
  assert (Hbase : forall k v,
            (init_headers options ∪ ({[ "Content-Type" := "application/json" ]}
               : gmap string string)) !! k = v ->
            k <> "Authorization" ->
            headers (request_sent path options w) !! k = v).
  { intros k v Hk Hne. unfold request_sent. cbn.
    destruct (token_truthy _); [rewrite lookup_insert_ne by congruence|];
      exact Hk. }
  split; [|split; [|split]].
  - apply Hbase; [|discriminate]. rewrite lookup_union.
    destruct (init_headers options !! "Content-Type"); reflexivity.
  - intros token Hstored Hne. apply request_sent_bearer; assumption.
  - apply request_sent_anonymous.
  - intros k HCT HAuth. apply Hbase; [|exact HAuth].
    rewrite lookup_union, lookup_singleton_ne by congruence.
    destruct (init_headers options !! k); reflexivity.
Qed.

(** A caller's own [Authorization] gives way to the stored token. *)
Lemma request_headers_witness :
  let options :=
    mkInit None {[ "Authorization" := "Basic abc"; "X-Trace" := "1" ]} None in
  let '(_, _, w') :=
    request "/auth/me" options None tt (Scenario.signed_in Scenario.silent) in
  exists s,
    last_sent w' = Some s /\
    headers s !! "Authorization" = Some "Bearer t0k3n" /\
    headers s !! "X-Trace" = Some "1".
Proof.
  intros options.
  pose proof (request_headers "/auth/me" options None tt
                (Scenario.signed_in Scenario.silent)) as H.
  destruct (request _ _ _ _ _) as [[r st'] w'].
  destruct H as (s & Hlast & _ & _ & _ & _ & Hbearer & _ & Hother).
  exists s. split; [exact Hlast|]. split.
  - apply (Hbearer "t0k3n"); [reflexivity|discriminate].
  - rewrite Hother; [reflexivity|discriminate|discriminate].
Defined.

(** X4. [request] never stores a token and never touches another key of
    localStorage: after a call the stored token is the one before, or it is
    gone, and it is gone only after an [ApiError] with status 401. *)
Theorem request_storage_frame {S} path options timeoutMs (st : S) w :
  let '(r, _, w') := request path options timeoutMs st w in
  (forall k, k <> TOKEN_KEY -> localStorage w' !! k = localStorage w !! k) /\
  (localStorage w' = localStorage w \/
   (localStorage w' = delete TOKEN_KEY (localStorage w) /\
    exists detail, r = Throws (ApiError 401 detail))).
Proof.
  destruct (request_cases path options timeoutMs st w)
    as [(data & fate & ->)|[(e & fate & -> & _)|(detail & fate & ->)]]; cbn.
  - split; [reflexivity|left; reflexivity].
  - split; [reflexivity|left; reflexivity].
  - split.
    + intros k Hk. apply lookup_delete_ne. congruence.
    + right. split; [reflexivity|]. exists detail. reflexivity.
Qed.

(** X5. The token helpers: a token that was set is the one read back, a
    later [setToken] replaces it, [clearToken] removes it whether or not one
    was set, and no helper touches another key. *)
Theorem token_round_trip {S} (token token' : string) (st : S) w :
  fst (fst ((setToken token;; getToken) st w)) = Returns (Some token) /\
  fst (fst ((clearToken;; getToken) st w)) = Returns None /\
  (setToken token;; setToken token') st w = setToken token' st w /\
  (setToken token;; clearToken) st w = clearToken st w /\
  (forall k, k <> TOKEN_KEY ->
     localStorage (snd (setToken token st w)) !! k = localStorage w !! k /\
     localStorage (snd (clearToken st w)) !! k = localStorage w !! k).
Proof.
  unfold setToken, clearToken, getToken, modify_world, get_world, set_localStorage,
    mbind, M_bind, mret, M_ret; cbn.
  split; [rewrite lookup_insert_eq; reflexivity|].
  split; [rewrite lookup_delete_eq; reflexivity|].
  split; [rewrite insert_insert_eq; reflexivity|].
  split; [rewrite delete_insert_eq; reflexivity|].
  intros k Hk. split.
  - apply lookup_insert_ne. congruence.
  - apply lookup_delete_ne. congruence.
Qed.

(* ===================================================================== *)
(** ** Further properties of the session *)
(* ===================================================================== *)




(** X7. A login response that does not have the expected shape: a [null]
    body makes [login] throw a [TypeError] and store nothing; an object
    without [access_token] is returned and the string "undefined" is stored
    as the token. *)
Theorem login_malformed_body {S} email password (st : S) w data :
  replies w "POST" "/auth/login" (mkResponse 200 (Some data)) ->
  let '(r, _, w') := login email password st w in
  (data = JNull ->
     (exists m, r = Throws (TypeError m)) /\ localStorage w' = localStorage w) /\
  (forall fields, data = JObj fields -> fields !! "access_token" = None ->
     r = Returns data /\ stored_token w' = Some "undefined").
Proof.
  intros Hreplies.
  unfold login, mbind, M_bind.
  rewrite (request_replied "/auth/login" (POST (Some (credentials email password)))
             st w w _ Hreplies eq_refl eq_refl).
  cbn. destruct data as [|b|n|s0|items|fields0]; cbn;
    (split; [intros Hd; try discriminate
            |intros fields Hd Hmissing; try discriminate]).
  - split; [eexists; reflexivity|reflexivity].
  - injection Hd as ->. split; [reflexivity|].
    unfold stored_token. cbn. rewrite Hmissing. apply lookup_insert_eq.
Qed.

(** A backend that answers the login with an empty object. *)
Lemma login_malformed_body_witness :
  let '(r, _, w') :=
    login "ada@example.org" "pw" tt
      (Scenario.signed_out (Scenario.holding (JObj ∅))) in
  r = Returns (JObj ∅) /\ stored_token w' = Some "undefined".
Proof.
  pose proof (login_malformed_body "ada@example.org" "pw" tt
    (Scenario.signed_out (Scenario.holding (JObj ∅))) (JObj ∅)) as H.
  destruct (login _ _ _ _) as [[r st'] w'].
  destruct H as [_ H].
  - intros hist s _ _. exists 40%N. split; reflexivity.
  - apply (H ∅); reflexivity.
Defined.



(** X9. [logout] sends nothing, removes the token and sets the user to null,
    whatever the session was, so that the guard redirects to the login page
    and the next call carries no token; logging out twice is logging out
    once; the navigation bar's logout also goes to the login page. *)
Theorem logout_ends_session (st : AuthContext.AuthState) w
    (nav : WithAuth (option string)) :
  (let '(r, st', w') := AuthContext.logout st w in
   r = Returns tt /\
   net_log w' = net_log w /\
   stored_token w' = None /\
   AuthContext.user st' = JNull /\
   Guard.RouteGuard (AuthContext.user st') false = Guard.Nothing /\
   Guard.RouteGuard_effect (AuthContext.user st') false = Some "/auth/login" /\
   AuthContext.logout st' w' = (Returns tt, st', w')) /\
  (let '(r, nav', w') := Navbar.handleLogout nav w in
   r = Returns tt /\
   own nav' = Some "/auth/login" /\
   AuthContext.user (auth nav') = JNull /\
   stored_token w' = None /\
   net_log w' = net_log w).
Proof.
  split.
  - unfold AuthContext.logout, AuthContext.setUser, clearToken, modify_world,
      set_state, mbind, M_bind; cbn.
    repeat (split; [try reflexivity; try apply lookup_delete_eq|]).
    unfold set_localStorage; cbn. rewrite delete_delete_eq. reflexivity.
  - unfold Navbar.handleLogout, in_auth, in_own, AuthContext.logout,
      AuthContext.setUser, clearToken, modify_world, set_state, mbind, M_bind; cbn.
    repeat (split; [try reflexivity; try apply lookup_delete_eq|]).
    reflexivity.
Qed.

(** X10. A stored token that is the empty string counts as no session:
    [refresh] sends nothing and sets the user to null with [loading] false,
    and the empty token stays in localStorage. *)
Theorem refresh_empty_token (st : AuthContext.AuthState) w :
  stored_token w = Some "" ->
  AuthContext.refresh st w =
  (Returns tt, AuthContext.mkAuth JNull false (AuthContext.mounted st), w).
Proof.
  unfold stored_token, AuthContext.refresh, getToken, get_world, mbind, M_bind,
    mret, M_ret. intros ->. reflexivity.
Qed.

Lemma refresh_empty_token_witness :
  let w := mkWorld None Cases.serving_ada {[ TOKEN_KEY := "" ]} [] in
  AuthContext.refresh AuthContext.initial w =
  (Returns tt, AuthContext.mkAuth JNull false false, w).
Proof.
  intros w. apply (refresh_empty_token AuthContext.initial w). reflexivity.
Defined.

(** X11. Once [refresh] has settled the guard no longer shows the
    placeholder: it shows the children only if a non-empty token was stored
    and the who-am-I call returned a truthy snapshot, and otherwise renders
    nothing and redirects to the login page. *)
Theorem refresh_then_guard (st : AuthContext.AuthState) w :
  let '(_, st', _) := AuthContext.refresh st w in
  let shown := Guard.RouteGuard (AuthContext.user st') (AuthContext.loading st') in
  shown <> Guard.Placeholder /\
  (shown = Guard.Children ->
     token_truthy (stored_token w) = true /\
     exists me w1, outcome getMe w = (Returns me, w1) /\
                   js_truthy (Some me) = true) /\
  (shown = Guard.Nothing ->
     Guard.RouteGuard_effect (AuthContext.user st') (AuthContext.loading st') =
       Some "/auth/login").
Proof.
  set (o := outcome getMe w).
  unfold AuthContext.refresh, getToken, get_world, mbind, M_bind, mret, M_ret,
    stored_token.
  destruct (token_truthy (localStorage w !! TOKEN_KEY)) eqn:Htoken; cbn.
  - unfold try_finally, try_catch, getMe, AuthContext.setUser,
      AuthContext.setLoading, clearToken, modify_world, set_state, mbind, M_bind.
    rewrite request_outcome. fold (getMe (S:=unit)). fold o.
    destruct o as [[me|e] w1];
      cbn [fst snd AuthContext.user AuthContext.loading];
      unfold Guard.RouteGuard, Guard.RouteGuard_effect; cbn [negb andb].
    + destruct (js_truthy (Some me)) eqn:Htruthy; cbn [negb].
      * split; [discriminate|]. split; [|discriminate].
        intros _. split; [reflexivity|]. exists me, w1. split; [reflexivity|].
        exact Htruthy.
      * split; [discriminate|]. split; [discriminate|]. reflexivity.
    + cbn. split; [discriminate|]. split; [discriminate|]. reflexivity.
  - cbn. split; [discriminate|]. split; [discriminate|]. reflexivity.
Qed.

Lemma refresh_then_guard_witness :
  let '(_, st', _) :=
    AuthContext.refresh AuthContext.initial (Scenario.signed_in Cases.serving_ada) in
  Guard.RouteGuard (AuthContext.user st') (AuthContext.loading st') = Guard.Children /\
  token_truthy (stored_token (Scenario.signed_in Cases.serving_ada)) = true.
Proof.
  pose proof (refresh_then_guard AuthContext.initial
                (Scenario.signed_in Cases.serving_ada)) as H.
  destruct (AuthContext.refresh _ _) as [[r st'] w'] eqn:Hrun.
  assert (Hshown : Guard.RouteGuard (AuthContext.user st') (AuthContext.loading st')
                   = Guard.Children).
  { vm_compute in Hrun. injection Hrun as _ <- _. reflexivity. }
  destruct H as (_ & Hchildren & _).
  split; [exact Hshown|]. apply (Hchildren Hshown).
Defined.

(** X12. The Google callback.  Without a token in the URL nothing is stored
    or sent and the error is shown.  With one, the token is stored before
    the who-am-I call, which therefore carries it; on success the user is
    set and the page is replaced by the dashboard; on failure the error is
    shown, the session is left as it was, and the token from the URL stays
    in localStorage unless the failure was a 401, which removed it. *)
Theorem google_callback token (st : WithAuth GoogleCallback.Page) w :
  let '(r, st', w') := GoogleCallback.callback_effect token st w in
  r = Returns tt /\
  (token_truthy token = false ->
     w' = w /\
     auth st' = auth st /\
     GoogleCallback.replaced (own st') = GoogleCallback.replaced (own st) /\
     GoogleCallback.error_message (own st') =
       Some "No token received from Google authentication.") /\
  (forall t, token = Some t -> t <> "" ->
     (exists s, last_sent w' = Some s /\
                headers s !! "Authorization" = Some ("Bearer " +:+ t)) /\
     match outcome getMe
             (set_localStorage (<[TOKEN_KEY := t]> (localStorage w)) w) with
     | (Returns me, w1) =>
         net_log w' = net_log w1 /\
         stored_token w' = Some t /\
         AuthContext.user (auth st') = me /\
         GoogleCallback.replaced (own st') = Some "/dashboard" /\
         GoogleCallback.error_message (own st') =
           GoogleCallback.error_message (own st)
     | (Throws e, w1) =>
         w' = w1 /\
         auth st' = auth st /\
         GoogleCallback.replaced (own st') = GoogleCallback.replaced (own st) /\
         GoogleCallback.error_message (own st') =
           Some "Failed to authenticate with Google. Please try again." /\
         stored_token w' = (if is_unauthorized e then None else Some t)
     end).
Proof.
  unfold GoogleCallback.callback_effect.
  destruct (token_truthy token) eqn:Htruthy; cbn [negb].
  - destruct token as [t|]; [|discriminate].
    change (default "" (Some t)) with t.
    assert (Hne : t <> "").
    { intros ->. discriminate. }
    set (w0 := set_localStorage (<[TOKEN_KEY := t]> (localStorage w)) w).
    assert (Hstored0 : stored_token w0 = Some t) by apply lookup_insert_eq.
    unfold GoogleCallback.handleToken, GoogleCallback.setError,
      GoogleCallback.router_replace, in_auth, in_own, AuthContext.loginFn,
      AuthContext.setUser, setToken, modify_world, set_state, try_catch,
      getMe, mbind, M_bind.
    cbv beta iota zeta. fold w0.
    pose proof (request_outcome "/auth/me" no_options None st w0) as Hout.
    destruct (request_cases "/auth/me" no_options None st w0)
      as [(me & fate & Hreq)|[(e & fate & Hreq & Hun)|(detail & fate & Hreq)]];
      rewrite Hreq in Hout |- *; cbv beta iota zeta;
      (split; [reflexivity|]); (split; [discriminate|]);
      intros t' [= <-] _; fold w0;
      destruct (outcome (request "/auth/me" no_options None) w0) as [ro wo];
      cbn [fst snd] in Hout; injection Hout as <- <-;
      (split;
       [exists (request_sent "/auth/me" no_options w0); split;
        [unfold last_sent; cbn; rewrite last_snoc; reflexivity
        |apply request_sent_bearer; assumption]|]).
    + cbn. split; [reflexivity|]. split; [apply lookup_insert_eq|].
      repeat split.
    + cbn. rewrite Hun. repeat split. exact Hstored0.
    + cbn. repeat split. apply lookup_delete_eq.
  - unfold GoogleCallback.setError, in_own, set_state. cbn.
    split; [reflexivity|]. split; [intros _; repeat split|].
    intros t -> Hne. cbn in Htruthy.
    destruct (String.eqb_spec t ""); [contradiction|discriminate].
Qed.

(** A callback whose token the backend does not know (500): the token stays. *)
Lemma google_callback_witness :
  let '(_, st', w') :=
    GoogleCallback.callback_effect (Some "g00gle")
      (mkWithAuth AuthContext.initial GoogleCallback.initial)
      (Scenario.signed_out Cases.failing) in
  stored_token w' = Some "g00gle" /\
  AuthContext.user (auth st') = JNull /\
  GoogleCallback.replaced (own st') = None.
Proof.
  pose proof (google_callback (Some "g00gle")
                (mkWithAuth AuthContext.initial GoogleCallback.initial)
                (Scenario.signed_out Cases.failing)) as H.
  destruct (GoogleCallback.callback_effect _ _ _) as [[r st'] w'].
  destruct H as (_ & _ & H).
  destruct (H "g00gle" eq_refl ltac:(discriminate)) as [_ Hfail].
  vm_compute in Hfail. destruct Hfail as (_ & Hauth & Hreplaced & _ & Hstored).
  split; [exact Hstored|]. split; [|exact Hreplaced].
  replace (auth st') with AuthContext.initial by (symmetry; exact Hauth).
  reflexivity.
Defined.

(** X13. The dashboard's [load] sends one GET and never throws.  On a
    mounted screen [loading] ends false in every case, and the response is
    kept only when the call returned a body that is not null and has an
    [ideas] field that is neither missing nor null (the log line reads its
    length); otherwise the data is as before.  After unmount nothing is
    set. *)
Theorem dashboard_load active (st : DashboardContent.State) w :
  let '(r, st', w') := DashboardContent.load active st w in
  r = Returns tt /\
  w' = snd (outcome getDashboard w) /\
  length (net_log w') = S (length (net_log w)) /\
  generate_calls w' = generate_calls w /\
  (active = false -> st' = st) /\
  (active = true ->
     DashboardContent.loading st' = false /\
     DashboardContent.data st' =
       match fst (outcome getDashboard w) with
       | Returns res =>
           if present (js_get "ideas" res) then res else DashboardContent.data st
       | Throws _ => DashboardContent.data st
       end).
Proof.
  set (o := outcome getDashboard w).
  assert (Hlog : length (net_log (snd o)) = S (length (net_log w)) /\
                 generate_calls (snd o) = generate_calls w).
  { subst o. unfold outcome, getDashboard.
    destruct (request "/auth/dashboard" no_options None tt w) as [[r0 st0] w0] eqn:Hreq.
    pose proof (request_generate_calls _ _ _ _ _ _ _ _ Hreq) as Hgen.
    apply request_log in Hreq as (_ & [fate Hlog] & _). cbn [snd].
    split; [rewrite Hlog, length_app; cbn; lia|cbn in Hgen; lia]. }
  unfold DashboardContent.load, DashboardContent.load_try,
    DashboardContent.setData, DashboardContent.setLoading,
    DashboardContent.log_length, set_state, try_finally, try_catch, js_prop,
    throw, getDashboard, mbind, M_bind, mret, M_ret.
  rewrite request_outcome. fold (getDashboard (S:=unit)). fold o.
  destruct Hlog as [Hlen Hgen].
  destruct o as [[res|e] w1]; cbn [fst snd] in *.
  - destruct res as [|b|n|s0|items|fields]; cbn;
      try (destruct active; cbn; repeat split; auto; discriminate).
    destruct (fields !! "ideas") as [[| | | | |]|]; destruct active; cbn;
      repeat split; auto; discriminate.
  - destruct active; cbn; repeat split; auto; discriminate.
Qed.

(** A dashboard answer without [ideas] is dropped. *)
Lemma dashboard_load_witness :
  let '(_, st', _) :=
    DashboardContent.load true DashboardContent.initial
      (Scenario.signed_in (Scenario.holding (JObj {[ "pitch_decks" := JArr [] ]}))) in
  DashboardContent.loading st' = false /\ DashboardContent.data st' = JNull.
Proof.
  pose proof (dashboard_load true DashboardContent.initial
    (Scenario.signed_in (Scenario.holding (JObj {[ "pitch_decks" := JArr [] ]}))))
    as H.
  destruct (DashboardContent.load _ _ _) as [[r st'] w'].
  destruct H as (_ & _ & _ & _ & _ & H).
  destruct (H eq_refl) as [Hloading Hdata].
  split; [exact Hloading|]. rewrite Hdata. reflexivity.
Defined.

(* ===================================================================== *)
(** ** Further properties of the evaluation screen *)
(* ===================================================================== *)

Lemma outcome_request_log path options timeoutMs w r w' :
  outcome (request path options timeoutMs) w = (r, w') ->
  exists fate, net_log w' = net_log w ++ [(request_sent path options w, fate)].
Proof.
  unfold outcome.
  destruct (request path options timeoutMs tt w) as [[r0 st0] w0] eqn:Hreq.
  intros [= _ <-]. apply request_log in Hreq as (_ & Hlog & _). exact Hlog.
Qed.

(** A report that passes the shape test has a number as its final score. *)
Lemma shape_valid_number data :
  EvaluationContent.shape_invalid data = false ->
  is_number (module_scores ← js_get "module_scores" data;
             js_get "final_viability_score" module_scores) = true.
Proof.
  unfold EvaluationContent.shape_invalid. intros H.
  apply orb_false_iff in H as [_ H]. apply negb_false_iff in H. exact H.
Qed.

(** [run] in closed form, mounted or not. *)
Lemma run_unfold ideaId (active : bool) (st : EvaluationContent.State) w :
  EvaluationContent.run ideaId active st w =
  match outcome (getEvaluation ideaId) w with
  | (Returns data, w1) => (Returns tt, run_settled active (Returns data) st, w1)
  | (Throws e, w1) =>
      if is_404 e then
        let '(o, w2) := outcome (evaluateIdea ideaId) w1 in
        (Returns tt, run_settled active o st, w2)
      else (Returns tt, run_settled active (Throws e) st, w1)
  end.
Proof.
  unfold EvaluationContent.run, EvaluationContent.setStatus,
    EvaluationContent.setError, EvaluationContent.setReport, set_state,
    try_catch, throw, mbind, M_bind, mret, M_ret, run_settled, run_begun.
  cbn beta iota zeta.
  unfold getEvaluation at 1. rewrite request_outcome.
  fold (getEvaluation (S:=unit) ideaId).
  destruct (outcome (getEvaluation ideaId) w) as [[data|e] w1]; cbn [fst snd].
  - destruct (EvaluationContent.shape_invalid data), active; reflexivity.
  - destruct (is_404 e); cbn.
    + unfold evaluateIdea at 1. rewrite request_outcome.
      fold (evaluateIdea (S:=unit) ideaId).
      destruct (outcome (evaluateIdea ideaId) w1) as [[data|e'] w2];
        cbn [fst snd];
        [destruct (EvaluationContent.shape_invalid data)|]; destruct active;
        reflexivity.
    + destruct active; reflexivity.
Qed.

(** X14. With an empty idea id no screen sends anything: the evaluation,
    market-research, pitch-deck and MVP screens show the error "Missing idea
    ID"; the evaluation screen's status checks and the legal screen's
    [fetchDocs] do nothing at all, so that the legal screen keeps whatever
    status it had. *)
Theorem missing_idea_id active (ev : EvaluationContent.State)
    (mr : MarketResearchContent.State) (legal : LegalContent.State)
    (agent : AgentScreen.State) w :
  EvaluationContent.evaluation_effect "" active ev w =
    (Returns tt,
     EvaluationContent.mkState EvaluationContent.error
       (EvaluationContent.report ev) (Some "Missing idea ID")
       (EvaluationContent.hasMR ev) (EvaluationContent.hasPD ev)
       (EvaluationContent.hasMVP ev) (EvaluationContent.mvpGateOpen ev), w) /\
  EvaluationContent.agent_status_checks "" ev w = (Returns tt, ev, w) /\
  MarketResearchContent.load_effect "" active mr w =
    (Returns tt,
     MarketResearchContent.mkState MarketResearchContent.error
       (MarketResearchContent.research mr) (Some (JStr "Missing idea ID")), w) /\
  LegalContent.fetchDocs "" legal w = (Returns tt, legal, w) /\
  PitchDeckContent.loadDeck_effect "" active agent w =
    (Returns tt,
     AgentScreen.mkState AgentScreen.error (AgentScreen.record agent)
       (Some (JStr "Missing idea ID")), w) /\
  MVPContent.load_effect "" active agent w =
    PitchDeckContent.loadDeck_effect "" active agent w.
Proof. repeat split. Qed.

(** X15. What [run] puts on the wire, mounted or not: first the GET of the
    stored evaluation; nothing more when it returns or fails with anything
    but a 404; after a 404 one POST.  So at most two requests and at most
    one generate call per run, and a stored evaluation is never run again. *)
Theorem run_request_budget ideaId active (st : EvaluationContent.State) w :
  let '(r, _, w') := EvaluationContent.run ideaId active st w in
  r = Returns tt /\
  (exists fate rest,
     net_log w' =
       net_log w ++ (request_sent ("/ideas/" +:+ ideaId +:+ "/evaluation")
                       no_options w, fate) :: rest /\
     (length rest <= 1)%nat) /\
  (generate_calls w' <= S (generate_calls w))%nat /\
  match outcome (getEvaluation ideaId) w with
  | (Returns _, w1) => w' = w1 /\ generate_calls w' = generate_calls w
  | (Throws e, w1) =>
      if is_404 e
      then w' = snd (outcome (evaluateIdea ideaId) w1) /\
           generate_calls w' = S (generate_calls w)
      else w' = w1 /\ generate_calls w' = generate_calls w
  end.
Proof.
  rewrite run_unfold. cbn zeta.
  destruct (outcome (getEvaluation ideaId) w) as [[data|e] w1] eqn:Hget.
  - pose proof (run_generate_calls_get _ _ _ _ Hget) as Hcalls.
    apply outcome_request_log in Hget as [fate Hlog].
    split; [reflexivity|]. split; [|split; [lia|split; [reflexivity|exact Hcalls]]].
    exists fate, []. split; [exact Hlog|cbn; lia].
  - pose proof (run_generate_calls_get _ _ _ _ Hget) as Hcalls.
    apply outcome_request_log in Hget as [fate Hlog].
    destruct (is_404 e).
    + destruct (outcome (evaluateIdea ideaId) w1) as [o w2] eqn:Hpost.
      pose proof (run_generate_calls_post _ _ _ _ Hpost) as Hcalls2.
      apply outcome_request_log in Hpost as [fate2 Hlog2].
      split; [reflexivity|].
      split; [|split; [lia|split; [reflexivity|cbn; lia]]].
      exists fate,
        [(request_sent ("/ideas/" +:+ ideaId +:+ "/evaluate") (POST None) w1, fate2)].
      split; [|cbn; lia].
      cbn [snd]. rewrite Hlog2, Hlog, <- app_assoc. reflexivity.
    + split; [reflexivity|]. split; [|split; [lia|split; [reflexivity|exact Hcalls]]].
      exists fate, []. split; [exact Hlog|cbn; lia].
Qed.

(** X16. Whenever [run] leaves the screen in [success], the stored report
    passes the shape test and [finalScore], which the success view reads
    from it, is a number. *)
Theorem success_has_score ideaId (active : bool) (st : EvaluationContent.State) w :
  let '(_, st', _) := EvaluationContent.run ideaId active st w in
  EvaluationContent.status st' = EvaluationContent.success ->
  EvaluationContent.shape_invalid (EvaluationContent.report st') = false /\
  is_number (EvaluationContent.finalScore st') = true /\
  EvaluationContent.error_message st' = None.
Proof.
  rewrite run_unfold.
  assert (Hsettle : forall o : exc json,
    EvaluationContent.status (run_settled active o st) = EvaluationContent.success ->
    EvaluationContent.shape_invalid
      (EvaluationContent.report (run_settled active o st)) = false /\
    is_number (EvaluationContent.finalScore (run_settled active o st)) = true /\
    EvaluationContent.error_message (run_settled active o st) = None).
  { intros o. unfold run_settled. destruct active; [|discriminate].
    destruct o as [data|e]; [|discriminate].
    destruct (EvaluationContent.shape_invalid data) eqn:Hshape; [discriminate|].
    intros _. cbn. split; [exact Hshape|]. split; [|reflexivity].
    apply shape_valid_number. exact Hshape. }
  destruct (outcome (getEvaluation ideaId) w) as [[data|e] w1].
  - apply (Hsettle (Returns data)).
  - destruct (is_404 e).
    + destruct (outcome (evaluateIdea ideaId) w1) as [o w2]. apply Hsettle.
    + apply (Hsettle (Throws e)).
Qed.

(** A stored evaluation with score 72.5. *)
Lemma success_has_score_witness :
  let '(_, st', _) :=
    EvaluationContent.run "abc123" true EvaluationContent.initial
      (Scenario.signed_in (Scenario.holding Scenario.report_72_5)) in
  EvaluationContent.status st' = EvaluationContent.success /\
  is_number (EvaluationContent.finalScore st') = true.
Proof.
  pose proof (success_has_score "abc123" true EvaluationContent.initial
    (Scenario.signed_in (Scenario.holding Scenario.report_72_5))) as H.
  destruct (EvaluationContent.run _ _ _ _) as [[r st'] w'] eqn:Hrun.
  assert (Hs : EvaluationContent.status st' = EvaluationContent.success).
  { vm_compute in Hrun. injection Hrun as _ Hst _. rewrite <- Hst. reflexivity. }
  split; [exact Hs|]. apply (H Hs).
Defined.

(** X17. A run whose screen was torn down before the calls settled sends the
    same requests as a mounted one and leaves the same world, but sets
    nothing after its first two assignments: the status stays [loading], the
    error cleared, and the report and the flags are those from before. *)
Theorem run_inactive_discards ideaId (st : EvaluationContent.State) w :
  EvaluationContent.run ideaId false st w =
  (Returns tt,
   EvaluationContent.mkState EvaluationContent.loading
     (EvaluationContent.report st) None (EvaluationContent.hasMR st)
     (EvaluationContent.hasPD st) (EvaluationContent.hasMVP st)
     (EvaluationContent.mvpGateOpen st),
   snd (EvaluationContent.run ideaId true st w)).
Proof.
  rewrite !run_unfold. unfold run_settled, run_begun.
  destruct (outcome (getEvaluation ideaId) w) as [[data|e] w1]; [reflexivity|].
  destruct (is_404 e); [|reflexivity].
  destruct (outcome (evaluateIdea ideaId) w1) as [o w2]. reflexivity.
Qed.

(** X18. The agent status checks of the evaluation screen are three GETs
    and nothing else: no generate call is sent, every flag is decided when
    they are done (a read that fails counts as "not there"), and the status
    and the report of the screen are not touched. *)
Theorem agent_status_checks_result ideaId (st : EvaluationContent.State) w :
  String.eqb ideaId "" = false ->
  let '(r, st', w') := EvaluationContent.agent_status_checks ideaId st w in
  r = Returns tt /\
  is_Some (EvaluationContent.hasMR st') /\
  is_Some (EvaluationContent.hasPD st') /\
  is_Some (EvaluationContent.hasMVP st') /\
  EvaluationContent.status st' = EvaluationContent.status st /\
  EvaluationContent.report st' = EvaluationContent.report st /\
  generate_calls w' = generate_calls w /\
  length (net_log w') = (3 + length (net_log w))%nat.
Proof.
  intros Hid. unfold EvaluationContent.agent_status_checks. rewrite Hid.
  unfold mbind at 1 2, M_bind at 1 2.
  unfold getMarketResearchByIdea, getPitchDeckByIdea, getMVPByIdea,
    EvaluationContent.setHasMR, EvaluationContent.setHasPD,
    EvaluationContent.setHasMVP.
  rewrite (status_check_unfold _ "completed"
             (fun x st => EvaluationContent.mkState (EvaluationContent.status st)
                (EvaluationContent.report st) (EvaluationContent.error_message st)
                (Some x) (EvaluationContent.hasPD st) (EvaluationContent.hasMVP st)
                (EvaluationContent.mvpGateOpen st))).
  destruct (outcome (request ("/market-research/idea/" +:+ ideaId) no_options None) w)
    as [o1 w1] eqn:H1.
  rewrite (status_check_unfold _ "completed"
             (fun x st => EvaluationContent.mkState (EvaluationContent.status st)
                (EvaluationContent.report st) (EvaluationContent.error_message st)
                (EvaluationContent.hasMR st) (Some x) (EvaluationContent.hasMVP st)
                (EvaluationContent.mvpGateOpen st))).
  destruct (outcome (request ("/pitch-deck/idea/" +:+ ideaId) no_options None) w1)
    as [o2 w2] eqn:H2.
  rewrite (status_check_unfold _ "generated"
             (fun x st => EvaluationContent.mkState (EvaluationContent.status st)
                (EvaluationContent.report st) (EvaluationContent.error_message st)
                (EvaluationContent.hasMR st) (EvaluationContent.hasPD st) (Some x)
                (EvaluationContent.mvpGateOpen st))).
  destruct (outcome (request ("/mvp/idea/" +:+ ideaId) no_options None) w2)
    as [o3 w3] eqn:H3.
  pose proof (outcome_request_generate_calls _ _ _ _ _ _ H1) as G1.
  pose proof (outcome_request_generate_calls _ _ _ _ _ _ H2) as G2.
  pose proof (outcome_request_generate_calls _ _ _ _ _ _ H3) as G3.
  apply outcome_request_log in H1 as [f1 L1].
  apply outcome_request_log in H2 as [f2 L2].
  apply outcome_request_log in H3 as [f3 L3].
  cbn in G1, G2, G3 |- *.
  repeat (split; [solve [reflexivity | eexists; reflexivity | lia]|]).
  rewrite L3, L2, L1, !length_app. cbn. lia.
Qed.

Lemma agent_status_checks_result_witness :
  let '(_, st', w') :=
    EvaluationContent.agent_status_checks "abc123" EvaluationContent.initial
      (Scenario.signed_in Scenario.unreachable) in
  EvaluationContent.hasMR st' = Some false /\
  EvaluationContent.hasMVP st' = Some false /\
  length (net_log w') = 3%nat.
Proof.
  pose proof (agent_status_checks_result "abc123" EvaluationContent.initial
                (Scenario.signed_in Scenario.unreachable) eq_refl) as H.
  destruct (EvaluationContent.agent_status_checks _ _ _) as [[r st'] w'] eqn:Hrun.
  destruct H as (_ & _ & _ & _ & _ & _ & _ & Hlen).
  split; [|split; [|exact Hlen]];
    vm_compute in Hrun; injection Hrun as _ Hst _; rewrite <- Hst; reflexivity.
Defined.

(** X19. When the read of the evaluation is refused with a status other
    than 404, the screen ends in [error] without a generate call and shows
    the server's [detail] as a string; when the error body is not JSON it
    shows "Request failed with status" and the status code. *)
Theorem run_shows_server_detail ideaId (st : EvaluationContent.State) w res :
  replies w "GET" ("/ideas/" +:+ ideaId +:+ "/evaluation") res ->
  ok res = false ->
  status res <> 404%N ->
  let '(_, st', w') := EvaluationContent.run ideaId true st w in
  EvaluationContent.status st' = EvaluationContent.error /\
  generate_calls w' = generate_calls w /\
  EvaluationContent.error_message st' = Some (js_String (detail_of res)) /\
  (json_body res = None ->
     EvaluationContent.error_message st' =
       Some ("Request failed with status " +:+ pretty (status res))) /\
  (forall fields s,
     json_body res = Some (JObj fields) -> fields !! "detail" = Some (JStr s) ->
     EvaluationContent.error_message st' = Some s).
Proof.
  intros Hreplies Hok H404.
  rewrite run_unfold.
  destruct (outcome (getEvaluation ideaId) w) as [o w1] eqn:Ho.
  pose proof (outcome_request_generate_calls _ _ _ _ _ _ Ho) as Hcalls.
  unfold outcome, getEvaluation in Ho.
  rewrite (request_replied ("/ideas/" +:+ ideaId +:+ "/evaluation") no_options
             tt w w res Hreplies eq_refl eq_refl) in Ho.
  rewrite Hok in Ho. cbn [fst snd] in Ho. injection Ho as <- Hw1.
  assert (Hnot : is_404 (ApiError (status res) (detail_of res)) = false).
  { cbn. apply N.eqb_neq. exact H404. }
  rewrite Hnot. cbn [run_settled].
  split; [reflexivity|]. split; [cbn in Hcalls; lia|]. split; [reflexivity|].
  split.
  - intros Hbody. cbn. unfold detail_of. rewrite Hbody. reflexivity.
  - intros fields s Hbody Hdetail. cbn. unfold detail_of. rewrite Hbody. cbn.
    rewrite Hdetail. reflexivity.
Qed.

Lemma run_shows_server_detail_witness :
  let '(_, st', _) :=
    EvaluationContent.run "abc123" true EvaluationContent.initial
      (Scenario.signed_in Cases.failing) in
  EvaluationContent.error_message st' = Some "Internal error".
Proof.
  pose proof (run_shows_server_detail "abc123" EvaluationContent.initial
    (Scenario.signed_in Cases.failing)
    (mkResponse 500 (Some (JObj {[ "detail" := JStr "Internal error" ]})))) as H.
  destruct (EvaluationContent.run _ _ _ _) as [[r st'] w'].
  destruct H as (_ & _ & _ & _ & H).
  - intros hist s _ _. exists 40%N. split; reflexivity.
  - reflexivity.
  - discriminate.
  - apply (H {[ "detail" := JStr "Internal error" ]} "Internal error");
      reflexivity.
Defined.

(* --------------------------------------------------------------------- *)
(** *** The market research screen: what a settled call leaves *)
(* --------------------------------------------------------------------- *)

Lemma is_string_eq k (v : value) :
  is_string k v = true <-> v = Some (JStr k).
Proof.
  destruct v as [[]|]; cbn; try (split; [discriminate|intros [=]]).
  rewrite String.eqb_eq. split; [intros ->; reflexivity|intros [= ->]; reflexivity].
Qed.

Lemma market_generate_try_settled (o : exc json) (st : MarketResearchContent.State) :
  cells_after (MarketResearchContent.handleGenerate_try (settled o)) st =
  match o with
  | Returns JNull =>
      MarketResearchContent.mkState MarketResearchContent.error
        (MarketResearchContent.research st)
        (Some (JStr "Cannot read properties of null (reading 'id')"))
  | Returns data =>
      MarketResearchContent.mkState MarketResearchContent.success data
        (MarketResearchContent.error_message st)
  | Throws e =>
      MarketResearchContent.mkState MarketResearchContent.error
        (MarketResearchContent.research st)
        (if instanceof_ApiError e then detail e else Some (JStr (message e)))
  end.
Proof.
  destruct o as [data|e]; [destruct data | destruct e]; reflexivity.
Qed.

Lemma market_load_try_settled (o : exc json) (st : MarketResearchContent.State) :
  cells_after (MarketResearchContent.load_try (settled o) true) st =
  match o with
  | Returns JNull =>
      MarketResearchContent.mkState MarketResearchContent.error
        (MarketResearchContent.research st)
        (Some (JStr "Cannot read properties of null (reading 'id')"))
  | Returns data =>
      MarketResearchContent.mkState
        (if is_string "completed" (js_get "status" data)
         then MarketResearchContent.success else MarketResearchContent.idle)
        data (MarketResearchContent.error_message st)
  | Throws e =>
      if is_404 e
      then MarketResearchContent.mkState MarketResearchContent.idle
             (MarketResearchContent.research st)
             (MarketResearchContent.error_message st)
      else MarketResearchContent.mkState MarketResearchContent.error
             (MarketResearchContent.research st) (Some (JStr (message e)))
  end.
Proof.
  destruct o as [data|e].
  - destruct data; reflexivity.
  - unfold cells_after, MarketResearchContent.load_try, try_catch, settled,
      mbind, M_bind. cbn -[is_404].
    destruct (is_404 e); reflexivity.
Qed.

(** X20. Generating market research is one POST whatever the screen showed
    before.  A record that comes back is kept and the screen is in
    [success], where the report is rendered exactly when the record's status
    is "completed" (any other record falls back to the idle view with its
    Generate button).  A failure of any kind ends in [error] with the record
    on screen untouched; the error cell then holds the message of the error,
    except for a rejection by the server, where it holds the [detail] of
    the error body as the server sent it, string or not. *)
Theorem market_generate_result ideaId (st : MarketResearchContent.State) w :
  let '(r, st', w') := MarketResearchContent.handleGenerate ideaId st w in
  r = Returns tt /\
  generate_calls w' = S (generate_calls w) /\
  match fst (outcome (generateMarketResearch ideaId) w) with
  | Returns JNull =>
      MarketResearchContent.status st' = MarketResearchContent.error /\
      MarketResearchContent.research st' = MarketResearchContent.research st
  | Returns data =>
      MarketResearchContent.status st' = MarketResearchContent.success /\
      MarketResearchContent.research st' = data /\
      MarketResearchContent.error_message st' = None /\
      (MarketResearchContent.render st' = MarketResearchContent.ReportView <->
       js_get "status" data = Some (JStr "completed"))
  | Throws e =>
      MarketResearchContent.status st' = MarketResearchContent.error /\
      MarketResearchContent.research st' = MarketResearchContent.research st /\
      MarketResearchContent.error_message st' =
        (if instanceof_ApiError e then detail e else Some (JStr (message e)))
  end /\
  (forall res,
     replies w "POST" ("/market-research/generate?idea_id=" +:+ ideaId) res ->
     ok res = false ->
     MarketResearchContent.status st' = MarketResearchContent.error /\
     MarketResearchContent.error_message st' = Some (detail_of res)).
Proof.
  rewrite handleGenerate_split.
  destruct (outcome (generateMarketResearch ideaId) w) as [o w1] eqn:Ho.
  pose proof (outcome_request_generate_calls _ _ _ _ _ _ Ho) as Hcalls.
  cbn [fst snd]. rewrite market_generate_try_settled.
  split; [reflexivity|]. split; [cbn in Hcalls; lia|].
  split.
  - destruct o as [data|e]; [|repeat split].
    destruct data as [|b|r|s|l|fields]; [repeat split|..];
      (split; [reflexivity|]; split; [reflexivity|]; split; [reflexivity|]);
      unfold MarketResearchContent.render; cbn -[String.eqb is_string];
      try (rewrite <- is_string_eq; destruct (is_string _ _); cbn;
           split; congruence);
      cbn -[String.eqb]; rewrite ?orb_true_r; split; discriminate.
  - intros res Hreplies Hok.
    unfold outcome, generateMarketResearch in Ho.
    rewrite (request_replied ("/market-research/generate?idea_id=" +:+ ideaId)
               (POST None) tt w w res Hreplies eq_refl eq_refl) in Ho.
    rewrite Hok in Ho. cbn [fst snd] in Ho. injection Ho as <- _.
    split; reflexivity.
Qed.

(** A request the server refuses as FastAPI does: the detail is a list. *)
Lemma market_generate_result_witness :
  let '(_, st', _) :=
    MarketResearchContent.handleGenerate "abc123" MarketResearchContent.initial
      (Scenario.signed_in Cases.refusing) in
  MarketResearchContent.status st' = MarketResearchContent.error /\
  MarketResearchContent.error_message st' =
    Some (JArr [JObj {[ "msg" := JStr "field required" ]}]).
Proof.
  pose proof (market_generate_result "abc123" MarketResearchContent.initial
                (Scenario.signed_in Cases.refusing)) as H.
  destruct (MarketResearchContent.handleGenerate _ _ _) as [[r st'] w'].
  destruct H as (_ & _ & _ & H).
  apply (H Cases.unprocessable); [|reflexivity].
  intros hist s _ _. exists 40%N. split; reflexivity.
Defined.

(** X21. The read of the market research record, on a mounted screen: a
    record comes back and is kept, and the screen is in [success] or in
    [idle] as its status is "completed" or not; a 404 gives [idle] with no
    error; any other failure gives [error] with the error's message.  The
    report is rendered exactly for a completed record, and no generate call
    is sent in any case. *)
Theorem market_load_result ideaId (st : MarketResearchContent.State) w :
  let '(r, st', w') := MarketResearchContent.load ideaId true st w in
  r = Returns tt /\
  generate_calls w' = generate_calls w /\
  match fst (outcome (getMarketResearchByIdea ideaId) w) with
  | Returns JNull =>
      MarketResearchContent.status st' = MarketResearchContent.error /\
      MarketResearchContent.research st' = MarketResearchContent.research st
  | Returns data =>
      MarketResearchContent.research st' = data /\
      MarketResearchContent.error_message st' = None /\
      MarketResearchContent.status st' =
        (if is_string "completed" (js_get "status" data)
         then MarketResearchContent.success else MarketResearchContent.idle) /\
      MarketResearchContent.render st' =
        (if is_string "completed" (js_get "status" data)
         then MarketResearchContent.ReportView else MarketResearchContent.IdleView)
  | Throws e =>
      MarketResearchContent.research st' = MarketResearchContent.research st /\
      if is_404 e
      then MarketResearchContent.status st' = MarketResearchContent.idle /\
           MarketResearchContent.error_message st' = None /\
           MarketResearchContent.render st' = MarketResearchContent.IdleView
      else MarketResearchContent.status st' = MarketResearchContent.error /\
           MarketResearchContent.error_message st' = Some (JStr (message e))
  end.
Proof.
  rewrite load_split.
  destruct (outcome (getMarketResearchByIdea ideaId) w) as [o w1] eqn:Ho.
  pose proof (outcome_request_generate_calls _ _ _ _ _ _ Ho) as Hcalls.
  cbn [fst snd]. rewrite market_load_try_settled.
  split; [reflexivity|]. split; [cbn in Hcalls; lia|].
  destruct o as [data|e].
  - destruct data; try (repeat split; fail).
    unfold MarketResearchContent.render. cbn -[is_string].
    destruct (is_string _ _) eqn:Hc; cbn -[is_string]; rewrite ?Hc;
      repeat split.
  - destruct (is_404 e); repeat split.
Qed.

(* --------------------------------------------------------------------- *)
(** *** The legal screen: reading, clicking a card, the list update *)
(* --------------------------------------------------------------------- *)

Lemma fetchDocs_try_settled (o : exc json) (st : LegalContent.State) :
  cells_after (LegalContent.fetchDocs_try (settled o)) st =
  match o with
  | Returns JNull =>
      LegalContent.mkState LegalContent.error (LegalContent.documents st)
        (LegalContent.selectedDoc st)
        (Some "Cannot read properties of null (reading 'records')")
        (LegalContent.generating st) (LegalContent.render_error st)
  | Returns res =>
      match LegalContent.as_array
              (LegalContent.records_or_empty (js_get "records" res)) with
      | Returns items =>
          LegalContent.mkState LegalContent.success items
            (LegalContent.selectedDoc st) (LegalContent.error_message st)
            (LegalContent.generating st) (LegalContent.render_error st)
      | Throws e =>
          LegalContent.mkState LegalContent.success (LegalContent.documents st)
            (LegalContent.selectedDoc st) (LegalContent.error_message st)
            (LegalContent.generating st) (Some e)
      end
  | Throws e =>
      if is_404 e
      then LegalContent.mkState LegalContent.success []
             (LegalContent.selectedDoc st) (LegalContent.error_message st)
             (LegalContent.generating st) (LegalContent.render_error st)
      else LegalContent.mkState LegalContent.error (LegalContent.documents st)
             (LegalContent.selectedDoc st) (Some (message e))
             (LegalContent.generating st) (LegalContent.render_error st)
  end.
Proof.
  destruct o as [res|e].
  - destruct res; try reflexivity.
    unfold cells_after, LegalContent.fetchDocs_try, LegalContent.setDocuments,
      LegalContent.setStatus, try_catch, settled, set_state, js_prop,
      mbind, M_bind, mret, M_ret. cbn -[LegalContent.as_array].
    destruct (LegalContent.as_array _); reflexivity.
  - unfold cells_after, LegalContent.fetchDocs_try, try_catch, settled,
      mbind, M_bind. cbn -[is_404].
    destruct (is_404 e); reflexivity.
Qed.

Lemma fetchDocs_split ideaId (st : LegalContent.State) w :
  String.eqb ideaId "" = false ->
  LegalContent.fetchDocs ideaId st w =
  (Returns tt,
   cells_after
     (LegalContent.fetchDocs_try (settled (fst (outcome (getLegalByIdea ideaId) w))))
     st,
   snd (outcome (getLegalByIdea ideaId) w)).
Proof.
  intros Hid. unfold LegalContent.fetchDocs. rewrite Hid.
  unfold LegalContent.fetchDocs_try, LegalContent.setStatus,
    LegalContent.setError, LegalContent.setDocuments, cells_after, settled,
    set_state, try_catch, js_prop, throw, mbind, M_bind, mret, M_ret.
  cbn beta iota.
  unfold getLegalByIdea at 1. rewrite request_outcome.
  fold (getLegalByIdea (S:=unit) ideaId).
  destruct (outcome (getLegalByIdea ideaId) w) as [[res|e] w1]; cbn [fst snd].
  - destruct res; reflexivity.
  - destruct (is_404 e); reflexivity.
Qed.

(** X22. Reading the legal documents never sends a generate call and never
    touches the selected document.  Without an idea id nothing is sent and
    nothing changes, so the screen stays as it was.  Otherwise, when the
    call returns, the [records] array of the answer replaces the list; an
    answer whose [records] is missing, [null] or another falsy value gives
    the empty list; a [records] that is truthy but not an array is stored
    as it is, and the render that follows throws on it ([documents.find] is
    not a function), which tears the screen down.  A 404 is not an error but
    an empty list; any other failure keeps the list and shows the error's
    message. *)
Theorem fetchDocs_result ideaId (st : LegalContent.State) w :
  let '(r, st', w') := LegalContent.fetchDocs ideaId st w in
  r = Returns tt /\
  generate_calls w' = generate_calls w /\
  LegalContent.selectedDoc st' = LegalContent.selectedDoc st /\
  LegalContent.generating st' = LegalContent.generating st /\
  if String.eqb ideaId "" then st' = st /\ w' = w
  else
    match fst (outcome (getLegalByIdea ideaId) w) with
    | Returns JNull =>
        LegalContent.status st' = LegalContent.error /\
        LegalContent.documents st' = LegalContent.documents st
    | Returns res =>
        LegalContent.status st' = LegalContent.success /\
        match js_get "records" res with
        | Some (JArr items) =>
            LegalContent.documents st' = items /\
            LegalContent.cards_shown st' = true
        | records =>
            if js_truthy records
            then LegalContent.render_error st' =
                   Some (TypeError "documents.find is not a function")
            else LegalContent.documents st' = [] /\
                 LegalContent.cards_shown st' = true
        end
    | Throws e =>
        if is_404 e
        then LegalContent.status st' = LegalContent.success /\
             LegalContent.documents st' = [] /\
             LegalContent.cards_shown st' = true
        else LegalContent.status st' = LegalContent.error /\
             LegalContent.documents st' = LegalContent.documents st /\
             LegalContent.error_message st' = Some (message e)
    end.
Proof.
  destruct (String.eqb ideaId "") eqn:Hid.
  - unfold LegalContent.fetchDocs. rewrite Hid. cbn. repeat split.
  - rewrite (fetchDocs_split _ _ _ Hid).
    destruct (outcome (getLegalByIdea ideaId) w) as [o w1] eqn:Ho.
    pose proof (outcome_request_generate_calls _ _ _ _ _ _ Ho) as Hcalls.
    cbn [fst snd]. rewrite fetchDocs_try_settled.
    split; [reflexivity|]. split; [cbn in Hcalls; lia|].
    destruct o as [res|e]; [|destruct (is_404 e); repeat split].
    destruct res as [|b|n|s0|items|fields]; try (repeat split; fail).
    unfold LegalContent.records_or_empty. cbn -[js_truthy].
    destruct (fields !! "records") as [[|b|n|s0|items|fields']|];
      cbn -[String.eqb]; try (repeat split; fail).
    + destruct b; repeat split.
    + destruct (String.eqb n "0"); repeat split.
    + destruct (String.eqb s0 ""); repeat split.
Qed.

(** X23. A click on a document type card.  When the list holds a generated
    document of that type, the first such document is selected and nothing
    is sent.  Otherwise exactly one request is sent: a POST to
    [/legal/generate] for the idea, whose body names the type of the card;
    and when the handler is done no card is marked as generating. *)
Theorem card_click ideaId key (st : LegalContent.State) w :
  let '(r, st', w') := LegalContent.card_onClick ideaId key st w in
  r = Returns tt /\
  match LegalContent.getDocByType st key with
  | Some existing =>
      w' = w /\
      st' = LegalContent.mkState (LegalContent.status st)
              (LegalContent.documents st) existing
              (LegalContent.error_message st) (LegalContent.generating st)
              (LegalContent.render_error st) /\
      In existing (LegalContent.documents st) /\
      LegalContent.document_type existing = Some (JStr key) /\
      LegalContent.record_status existing = Some (JStr "generated")
  | None =>
      LegalContent.generating st' = None /\
      exists fate,
        net_log w' =
        net_log w ++
        [(request_sent ("/legal/generate?idea_id=" +:+ ideaId)
            (POST (Some (JObj {[ "document_type" := JStr key ]}))) w, fate)]
  end.
Proof.
  unfold LegalContent.card_onClick, get_state. unfold mbind at 1, M_bind at 1.
  destruct (LegalContent.getDocByType st key) as [existing|] eqn:Hfind.
  - split; [reflexivity|]. split; [reflexivity|]. split; [reflexivity|].
    unfold LegalContent.getDocByType in Hfind.
    apply List.find_some in Hfind as [Hin Hex]. split; [exact Hin|].
    apply andb_prop in Hex as [Ht Hs].
    assert (Heq : forall k (v : value), is_string k v = true -> v = Some (JStr k)).
    { intros k [[]|]; cbn; try discriminate.
      rewrite String.eqb_eq. intros ->. reflexivity. }
    split; apply Heq; assumption.
  - rewrite legal_handleGenerate_split. cbn zeta.
    destruct (outcome (generateLegalDocument ideaId (GenerateLegalRequest key)) w)
      as [o w1] eqn:Ho.
    apply outcome_request_log in Ho. cbn [fst snd].
    split; [reflexivity|]. split; [|exact Ho].
    destruct o; reflexivity.
Qed.

(** X24. Putting a generated document in the list twice is the same as
    putting it there once, and the update adds at most one entry. *)
Theorem update_documents_idempotent result prev key :
  LegalContent.document_type result = Some (JStr key) ->
  LegalContent.update_documents result
    (LegalContent.update_documents result prev) =
  LegalContent.update_documents result prev /\
  (length (LegalContent.update_documents result prev) <= S (length prev))%nat.
Proof.
  intros Htype. unfold LegalContent.update_documents. split.
  - cbn [List.filter]. rewrite Htype at 1 2. cbn [strict_eq].
    rewrite String.eqb_refl. cbn [negb]. f_equal.
    induction prev as [|d prev IH]; [reflexivity|].
    cbn [List.filter].
    destruct (negb (strict_eq (LegalContent.document_type d)
                              (LegalContent.document_type result))) eqn:Hd.
    + cbn [List.filter]. rewrite Hd. f_equal. exact IH.
    + exact IH.
  - cbn [length]. apply le_n_S. induction prev as [|d prev IH]; [cbn; lia|].
    cbn [List.filter]. destruct (negb _); cbn [length]; lia.
Qed.

Lemma update_documents_idempotent_witness :
  LegalContent.update_documents Scenario.new_nda
    (LegalContent.update_documents Scenario.new_nda
       [Scenario.old_nda; Scenario.old_privacy]) =
  LegalContent.update_documents Scenario.new_nda
    [Scenario.old_nda; Scenario.old_privacy].
Proof.
  exact (proj1 (update_documents_idempotent Scenario.new_nda
                  [Scenario.old_nda; Scenario.old_privacy] "nda" eq_refl)).
Defined.

(** The read of the documents leaves the generating mark alone. *)
Lemma fetchDocs_try_generating (o : exc json) (st : LegalContent.State) :
  LegalContent.generating (cells_after (LegalContent.fetchDocs_try (settled o)) st) =
  LegalContent.generating st.
Proof.
  rewrite fetchDocs_try_settled.
  destruct o as [res|e]; [|destruct (is_404 e); reflexivity].
  destruct res; try reflexivity.
  destruct (LegalContent.as_array _); reflexivity.
Qed.

(** A generate call that settles clears the generating mark, whatever it
    settles with. *)
Lemma handleGenerate_try_generating (o : exc json) (st : LegalContent.State) :
  LegalContent.generating
    (cells_after (LegalContent.handleGenerate_try (settled o)) st) = None.
Proof.
  destruct o as [result|e]; [|reflexivity].
  unfold cells_after, LegalContent.handleGenerate_try, LegalContent.setDocuments,
    LegalContent.setSelectedDoc, LegalContent.setGenerating, try_finally,
    try_catch, settled, set_state, mbind, M_bind, mret, M_ret.
  unfold LegalContent.documents_updater. cbn -[LegalContent.reads_null].
  destruct (LegalContent.reads_null result (LegalContent.documents st));
    reflexivity.
Qed.

(** X25. On the legal screen a card is disabled only while the generate
    call it started is in flight: in every reachable state, the document
    type the screen marks as generating has a pending call of that type. *)
Theorem disabled_card_in_flight scr key :
  rtc LegalContent.step LegalContent.mounted_screen scr ->
  LegalContent.card_disabled (LegalContent.cells scr) key = true ->
  LegalContent.Generate key ∈ LegalContent.in_flight scr.
Proof.
  intros Hreach Hdis.
  assert (Hinv : forall k,
            LegalContent.generating (LegalContent.cells scr) = Some k ->
            LegalContent.Generate k ∈ LegalContent.in_flight scr).
  { clear Hdis. revert scr Hreach.
    apply (rtc_ind_r
             (fun scr => forall k,
                LegalContent.generating (LegalContent.cells scr) = Some k ->
                LegalContent.Generate k ∈ LegalContent.in_flight scr)).
    - intros k. cbn. discriminate.
    - intros scr scr' _ Hstep IH k.
      destruct Hstep as [scr before after o Hfl|scr Herr Hdocs
                        |scr k' existing _ _ _ _|scr k' _ _ _ _
                        |scr before after k' o Hfl]; cbn [LegalContent.cells LegalContent.in_flight].
      + rewrite fetchDocs_try_generating. intros Hk. specialize (IH k Hk).
        rewrite Hfl in IH.
        apply elem_of_app in IH as [IH|IH];
          [apply elem_of_app; left; exact IH|].
        apply elem_of_cons in IH as [IH|IH]; [discriminate|].
        apply elem_of_app; right; exact IH.
      + intros Hk. specialize (IH k Hk). set_solver.
      + intros Hk. exact (IH k Hk).
      + cbn. intros [= ->]. set_solver.
      + rewrite handleGenerate_try_generating. discriminate. }
  unfold LegalContent.card_disabled in Hdis.
  destruct (LegalContent.generating (LegalContent.cells scr)) as [g|] eqn:Hg;
    [|discriminate].
  apply String.eqb_eq in Hdis as <-. exact (Hinv g eq_refl).
Qed.

Lemma disabled_card_in_flight_witness :
  LegalContent.Generate "nda" ∈
  LegalContent.in_flight
    (LegalContent.mkScreen
       (cells_after (LegalContent.handleGenerate_begin "nda")
          (cells_after (LegalContent.fetchDocs_try (settled (Returns (JObj ∅))))
             LegalContent.initial))
       ([] ++ [LegalContent.Generate "nda"])).
Proof.
  apply (disabled_card_in_flight _ "nda"); [|reflexivity].
  eapply rtc_l.
  - refine (LegalContent.docs_settle LegalContent.mounted_screen [] []
              (Returns (JObj ∅)) eq_refl).
  - eapply rtc_l; [|apply rtc_refl].
    refine (LegalContent.card_generate (LegalContent.mkScreen _ []) "nda" _ _ _ _);
      try reflexivity.
    cbn. set_solver.
Defined.

(* --------------------------------------------------------------------- *)
(** *** The pitch-deck and MVP screens *)
(* --------------------------------------------------------------------- *)






(* --------------------------------------------------------------------- *)
(** *** The new-idea form *)
(* --------------------------------------------------------------------- *)

Lemma flag_error_empty cond key text (errors : gmap string string) :
  NewIdea.flag_error cond key text errors = ∅ <-> cond = false /\ errors = ∅.
Proof.
  unfold NewIdea.flag_error. destruct cond.
  - split; [|intros [[=] _]]. intros H. exfalso. exact (insert_non_empty _ _ _ H).
  - split; [intros ->; split; reflexivity|intros [_ ->]; reflexivity].
Qed.

(** X28. The form passes validation exactly when the progress indicator is
    on its last step and the three figures the indicator does not look at
    are in range: acquisition cost and lifetime value not negative, team
    size at least one. *)
Theorem valid_form_is_complete trim (form : NewIdea.StartupIdeaInput) :
  NewIdea.validate trim form = ∅ <->
  NewIdea.computeCurrentStep trim form = 3%nat /\
  Qle_bool 0 (NewIdea.estimated_cac form) = true /\
  Qle_bool 0 (NewIdea.estimated_ltv form) = true /\
  Qle_bool 1 (NewIdea.team_size form) = true.
Proof.
  unfold NewIdea.validate, NewIdea.computeCurrentStep. cbn zeta.
  rewrite !flag_error_empty.
  destruct (NewIdea.blank trim (NewIdea.startup_name form)),
    (NewIdea.blank trim (NewIdea.one_line_description form)),
    (NewIdea.blank trim (NewIdea.industry form)),
    (String.eqb (NewIdea.target_customer_type form) ""),
    (NewIdea.blank trim (NewIdea.geography form)),
    (String.eqb (NewIdea.customer_size form) ""),
    (String.eqb (NewIdea.revenue_model form) ""),
    (Qle_bool (NewIdea.pricing_estimate form) 0),
    (Qle_bool 0 (NewIdea.estimated_cac form)),
    (Qle_bool 0 (NewIdea.estimated_ltv form)),
    (Qle_bool 1 (NewIdea.team_size form)); cbn; intuition congruence.
Qed.

(** X29. Submitting the form.  With a validation error nothing is sent:
    the errors are shown and the form is not marked as submitting.  A valid
    form sends exactly one request, a POST of the form to [/ideas/]; when
    the handler is done the form is no longer submitting, and it has
    navigated to the page of the new idea exactly when the call returned,
    and shows the message of the error when it failed. *)
Theorem handleSubmit_result trim (encode : NewIdea.StartupIdeaInput -> json)
    (st : NewIdea.State) w :
  let '(r, st', w') :=
    NewIdea.handleSubmit trim (fun form => createIdea (encode form)) st w in
  r = Returns tt /\
  NewIdea.form st' = NewIdea.form st /\
  if decide (NewIdea.validate trim (NewIdea.form st) = ∅) then
    NewIdea.submitting st' = false /\
    NewIdea.errors st' = NewIdea.errors st /\
    (exists fate,
       net_log w' =
       net_log w ++
       [(request_sent "/ideas/" (POST (Some (encode (NewIdea.form st)))) w, fate)]) /\
    match fst (outcome (createIdea (encode (NewIdea.form st))) w) with
    | Returns JNull =>
        NewIdea.pushed st' = NewIdea.pushed st /\
        is_Some (NewIdea.apiError st')
    | Returns res =>
        NewIdea.pushed st' =
          Some ("/ideas/" +:+ value_String (js_get "idea_id" res)) /\
        NewIdea.apiError st' = None
    | Throws e =>
        NewIdea.pushed st' = NewIdea.pushed st /\
        NewIdea.apiError st' = Some (message e)
    end
  else
    w' = w /\
    NewIdea.errors st' = NewIdea.validate trim (NewIdea.form st) /\
    NewIdea.submitting st' = NewIdea.submitting st /\
    NewIdea.pushed st' = NewIdea.pushed st /\
    NewIdea.apiError st' = None.
Proof.
  unfold NewIdea.handleSubmit, NewIdea.setApiError, NewIdea.setErrors,
    NewIdea.setSubmitting, NewIdea.router_push, get_state, set_state,
    try_finally, try_catch, js_prop, throw, mbind, M_bind, mret, M_ret.
  cbn beta iota zeta. cbn [NewIdea.form].
  destruct (decide (NewIdea.validate trim (NewIdea.form st) = ∅)) as [Hv|Hv].
  - rewrite Hv. cbn [negb].
    rewrite map_size_empty. cbn [Nat.eqb negb].
    unfold createIdea at 1. rewrite request_outcome.
    fold (createIdea (S:=unit) (encode (NewIdea.form st))).
    destruct (outcome (createIdea (encode (NewIdea.form st))) w) as [o w1] eqn:Ho.
    apply outcome_request_log in Ho. cbn [fst snd].
    destruct o as [res|e]; [destruct res|]; cbn;
      repeat (split; [first [reflexivity | exact Ho]|]);
      first [reflexivity | eexists; reflexivity].
  - assert (Hsize : Nat.eqb (size (NewIdea.validate trim (NewIdea.form st))) 0 = false).
    { apply Nat.eqb_neq. intros H0. apply Hv. apply map_size_empty_iff. exact H0. }
    rewrite Hsize. cbn. repeat split.
Qed.

Example good_form_is_valid :
  NewIdea.validate id Cases.good_form = ∅ /\
  NewIdea.computeCurrentStep id Cases.good_form = 3%nat.
Proof. split; reflexivity. Qed.

Example handleSubmit_empty_form_sends_nothing :
  let st := NewIdea.mkState Cases.empty_form ∅ false None None in
  let '(_, st', w') :=
    NewIdea.handleSubmit id (fun form => createIdea (JObj ∅)) st
      (Scenario.signed_in Cases.serving_ada) in
  w' = Scenario.signed_in Cases.serving_ada /\
  NewIdea.errors st' !! "startup_name" = Some "Required" /\
  NewIdea.pushed st' = None.
Proof. vm_compute. repeat split. Qed.

(* --------------------------------------------------------------------- *)
(** *** Signing up *)
(* --------------------------------------------------------------------- *)

(** X30. Signing up does not sign in.  From a browser that holds no token,
    [signup] sends one POST of the three fields to [/auth/signup] without an
    [Authorization] header, and whatever comes back (even a body that
    carries a token) the storage is left as it was. *)
Theorem signup_stores_no_token {S} email username password (st : S) w :
  stored_token w = None ->
  let '(r, st', w') := signup email username password st w in
  localStorage w' = localStorage w /\
  exists s fate,
    net_log w' = net_log w ++ [(s, fate)] /\
    url s = API_BASE_URL w +:+ "/auth/signup" /\
    method s = "POST" /\
    body s = Some (JObj {[ "email" := JStr email; "username" := JStr username;
                           "password" := JStr password ]}) /\
    headers s !! "Authorization" = None.
Proof.
  intros Hnone. unfold signup. unfold stored_token in Hnone.
  set (options := POST _).
  assert (Hsent : headers (request_sent "/auth/signup" options w)
                    !! "Authorization" = None).
  { unfold request_sent. rewrite Hnone. reflexivity. }
  destruct (request_cases "/auth/signup" options None st w)
    as [(data & fate & ->)|[(e & fate & -> & _)|(detail & fate & ->)]]; cbn.
  - split; [reflexivity|]. eexists _, fate. split; [reflexivity|].
    repeat (split; [reflexivity|]). exact Hsent.
  - split; [reflexivity|]. eexists _, fate. split; [reflexivity|].
    repeat (split; [reflexivity|]). exact Hsent.
  - split; [apply delete_id; exact Hnone|]. eexists _, fate.
    split; [reflexivity|]. repeat (split; [reflexivity|]). exact Hsent.
Qed.

Lemma signup_stores_no_token_witness :
  let '(_, _, w') :=
    signup "ada@example.org" "ada" "s3cret" tt
      (Scenario.signed_out Cases.serving_ada) in
  localStorage w' = ∅.
Proof.
  pose proof (signup_stores_no_token "ada@example.org" "ada" "s3cret" tt
                (Scenario.signed_out Cases.serving_ada) eq_refl) as H.
  destruct (signup _ _ _ _ _) as [[r st'] w'].
  destruct H as [H _]. exact H.
Defined.
